(** * guraNotesBackend: the note service of [src/server.js]

    [src/server.js] holds two historical versions of the same Express
    server.  Lines 1-151 are the first one (ES modules, route
    [/api/drawers/create]); it is embedded in [Module A].  Lines 152-360
    are the second one (CommonJS, route [/api/drawers], 403/404 answers);
    it is embedded in [Module B].

    Modelling conventions.
    - A MongoDB collection is the list of its documents in insertion
      (natural) order.  The store is available: no I/O failure is modelled.
    - An ObjectId is a number; the driver's generator is the counter
      [next_oid] of the store.
    - A request body is a JSON object whose fields, when present, are
      strings; an omitted field ([undefined]) is [None].
    - [req.params.id] is a string; the query casts it to an ObjectId or
      throws a CastError ([RouteId]).  The handlers proper, [put_notes]
      and [delete_notes], take the cast id; [put_notes_param] and
      [delete_notes_param] take the parameter as the route receives it.
    - The [createdAt] and [updatedAt] that [timestamps: true] adds to the
      users and drawers of the second version are not modelled; no route
      reads them.
    - The title and content of a body are strings or omitted; a value
      that does not cast to String is outside the model.
    - An instant ([Date]) is a number of milliseconds; the first version
      stores its ISO rendering in [createdAt].
    - Handlers pass the store explicitly: [DB -> Outcome * DB]. *)

From Stdlib Require Import String Ascii List ZArith NArith Bool Lia.
From Stdlib Require Import Sorting.Sorted Sorting.Permutation.
Import ListNotations.
Open Scope string_scope.

(** ** Data model *)

Definition ObjectId := N.
Bind Scope N_scope with ObjectId.

(** The [type] claim of a token and the [ownerType] of a note:
    ["user"] or ["drawer"]. *)
Inductive PrincipalType := user | drawer.

Definition PrincipalType_eqb (a b : PrincipalType) : bool :=
  match a, b with
  | user, user | drawer, drawer => true
  | _, _ => false
  end.

(** The decoded token payload [{ id, type }], stored in [req.user]. *)
Record Principal := mkPrincipal { p_id : ObjectId; p_type : PrincipalType }.

Record User := mkUser {
  user_id : ObjectId;
  user_email : string;
  user_username : option string;
  user_passwordHash : string }.

Record Drawer := mkDrawer {
  drawer_id : ObjectId;
  drawer_drawerName : string;
  drawer_passwordHash : string }.

Record Note := mkNote {
  note_id : ObjectId;
  ownerType : PrincipalType;
  ownerId : ObjectId;
  title : option string;
  content : option string;
  createdAt : Z;
  updatedAt : option Z }.

Definition owner (n : Note) : PrincipalType * ObjectId := (ownerType n, ownerId n).
Definition principal_pair (p : Principal) : PrincipalType * ObjectId := (p_type p, p_id p).

(** [req.body] after [express.json()]. *)
Record Body := mkBody {
  body_email : option string;
  body_username : option string;
  body_password : option string;
  body_drawerName : option string;
  body_title : option string;
  body_content : option string }.

Definition empty_body : Body := mkBody None None None None None None.

(** The shapes handed to [res.json]. *)
Inductive Json :=
| JError (error : string)
| JSuccessToken (token : string)
| JToken (token : string)
| JTokenUser (token : string) (uid : ObjectId) (email : string) (username : option string)
| JTokenDrawer (token : string) (did : ObjectId) (drawerName : string)
| JNotes (notes : list Note)
| JNote (n : option Note)
| JSuccess.

Record Response := mkResponse { status : Z; json : Json }.

(** What a handler run amounts to: a response was sent, or the promise of
    an [async] handler was rejected and nothing was sent. *)
Inductive Outcome :=
| Sent (r : Response)
| Rejected (reason : string).

Definition res_json (j : Json) : Outcome := Sent (mkResponse 200 j).
Definition res_status_json (code : Z) (j : Json) : Outcome := Sent (mkResponse code j).

Record DB := mkDB {
  Users : list User;
  Drawers : list Drawer;
  Notes : list Note;
  next_oid : ObjectId }.

Definition empty_db : DB := mkDB [] [] [] 0.

(** ** JavaScript values *)

(** A defined, non-empty string: what passes [if (!x) return ...]. *)
Definition truthy (x : option string) : option string :=
  match x with
  | Some s => if String.eqb s "" then None else Some s
  | None => None
  end.

(** [x || ""]. *)
Definition or_empty (x : option string) : string :=
  match x with
  | None => ""
  | Some s => s
  end.

(** [const { x = '' } = ...]: the default applies to [undefined] only. *)
Definition default_empty (x : option string) : string :=
  match x with
  | None => ""
  | Some s => s
  end.

(** [s.split(" ")]. *)
Fixpoint split_space (s : string) : list string :=
  match s with
  | EmptyString => [EmptyString]
  | String c r =>
      if Ascii.eqb c " "%char then EmptyString :: split_space r
      else match split_space r with
           | h :: t => String c h :: t
           | [] => [String c EmptyString]
           end
  end.

(** ** External primitives: bcrypt and jsonwebtoken *)

Class Crypto := {
  (** [bcrypt.hash(data, rounds)] on a string. *)
  bcrypt_hash : string -> string;
  (** [bcrypt.compare(data, hash)] on two strings. *)
  bcrypt_compare_str : string -> string -> bool;
  (** [jwt.sign(payload, JWT_SECRET, { expiresIn: "7d" })] at an instant. *)
  jwt_sign : Principal -> Z -> string;
  (** [jwt.verify(token, JWT_SECRET)] at an instant; [None] when it throws. *)
  jwt_verify : string -> Z -> option Principal }.

(** [bcrypt.compare] rejects when [data] is [undefined] or [null]. *)
Definition bcrypt_compare `{Crypto} (data : option string) (hash : string) : string + bool :=
  match data with
  | None => inl "data and hash arguments required"
  | Some d => inr (bcrypt_compare_str d hash)
  end.

(** ** Mongoose queries *)

(** A filter value against a stored string; [undefined] is sent as
    [null], which no stored string equals. *)
Definition matches_str (q : option string) (stored : string) : bool :=
  match q with
  | None => false
  | Some s => String.eqb s stored
  end.

Definition User_findOne (email : option string) (db : DB) : option User :=
  find (fun u => matches_str email (user_email u)) (Users db).

Definition Drawer_findOne (drawerName : option string) (db : DB) : option Drawer :=
  find (fun d => matches_str drawerName (drawer_drawerName d)) (Drawers db).

(** [Model.create] / [doc.save()] of a new document: a fresh [_id], the
    document appended to its collection. *)
Definition User_create (email : string) (username : option string) (passwordHash : string)
  (db : DB) : User * DB :=
  let u := mkUser (next_oid db) email username passwordHash in
  (u, mkDB (Users db ++ [u]) (Drawers db) (Notes db) (N.succ (next_oid db))).

Definition Drawer_create (drawerName passwordHash : string) (db : DB) : Drawer * DB :=
  let d := mkDrawer (next_oid db) drawerName passwordHash in
  (d, mkDB (Users db) (Drawers db ++ [d]) (Notes db) (N.succ (next_oid db))).

Definition Note_create (ot : PrincipalType) (oid : ObjectId) (t c : string) (now : Z)
  (db : DB) : Note * DB :=
  let n := mkNote (next_oid db) ot oid (Some t) (Some c) now None in
  (n, mkDB (Users db) (Drawers db) (Notes db ++ [n]) (N.succ (next_oid db))).

(** [Note.find({ ownerType, ownerId })]. *)
Definition Note_find (ot : PrincipalType) (oid : ObjectId) (db : DB) : list Note :=
  filter (fun n => PrincipalType_eqb (ownerType n) ot && N.eqb (ownerId n) oid) (Notes db).

(** [Note.findById(id)]. *)
Definition Note_findById (i : ObjectId) (db : DB) : option Note :=
  find (fun n => N.eqb (note_id n) i) (Notes db).

(** The first document that satisfies [f] is replaced by its image under [g]. *)
Fixpoint update_first (f : Note -> bool) (g : Note -> Note) (ns : list Note) : list Note :=
  match ns with
  | [] => []
  | n :: r => if f n then g n :: r else n :: update_first f g r
  end.

(** The first document that satisfies [f] is removed. *)
Fixpoint remove_first (f : Note -> bool) (ns : list Note) : list Note :=
  match ns with
  | [] => []
  | n :: r => if f n then r else n :: remove_first f r
  end.

Definition set_Notes (ns : list Note) (db : DB) : DB :=
  mkDB (Users db) (Drawers db) ns (next_oid db).

(** [Note.findOneAndUpdate(filter, update, { new: true })]: the updated
    document, or [null]. *)
Definition Note_findOneAndUpdate (f : Note -> bool) (g : Note -> Note) (db : DB)
  : option Note * DB :=
  (option_map g (find f (Notes db)), set_Notes (update_first f g (Notes db)) db).

(** [Note.deleteOne(filter)]. *)
Definition Note_deleteOne (f : Note -> bool) (db : DB) : DB :=
  set_Notes (remove_first f (Notes db)) db.

(** [note.save()] of a loaded document: the stored document with its
    [_id] takes the document's fields. *)
Definition Note_save (n : Note) (db : DB) : DB :=
  set_Notes (update_first (fun m => N.eqb (note_id m) (note_id n)) (fun _ => n) (Notes db)) db.

(** [.sort({ createdAt: -1 })]: newest first. *)
Fixpoint insert_desc (n : Note) (l : list Note) : list Note :=
  match l with
  | [] => [n]
  | m :: r => if Z.leb (createdAt m) (createdAt n) then n :: m :: r
              else m :: insert_desc n r
  end.

Fixpoint sort_createdAt_desc (l : list Note) : list Note :=
  match l with
  | [] => []
  | n :: r => insert_desc n (sort_createdAt_desc r)
  end.

(** [req.params.id]: a string that casts to an ObjectId, or one that
    does not (the query then throws a CastError). *)
Inductive RouteId :=
| oid (i : ObjectId)
| not_an_oid (raw : string).

(** One HTTP request, by route. *)
Inductive Request :=
| POST_register (body : Body)
| POST_drawers (body : Body)
| POST_login (body : Body)
| POST_drawers_login (body : Body)
| GET_notes (authorization : option string)
| POST_notes (authorization : option string) (body : Body)
| PUT_notes (authorization : option string) (id : RouteId) (body : Body)
| DELETE_notes (authorization : option string) (id : RouteId).

Definition Handler := DB -> Outcome * DB.

(** ** The first version (lines 1-151) *)
Module A.
Section Handlers.
Context `{Crypto}.

(** What an update does with a key whose value is [undefined]: Mongoose
    drops the key ([omitUndefined], the only behaviour from 6.x on) or
    sends it, and the driver writes [null]. *)
Variable omitUndefined : bool.

Definition update_field (supplied old : option string) : option string :=
  match supplied with
  | Some s => Some s
  | None => if omitUndefined then old else None
  end.

Definition auth (authorization : option string) (now : Z)
  (next : Principal -> Handler) : Handler := fun db =>
  let token := match authorization with
               | Some h => nth_error (split_space h) 1
               | None => None
               end in
  match truthy token with
  | None => (res_status_json 401 (JError "No token"), db)
  | Some t =>
      match jwt_verify t now with
      | Some p => next p db
      | None => (res_status_json 401 (JError "Invalid token"), db)
      end
  end.

Definition register (body : Body) (now : Z) : Handler := fun db =>
  match truthy (body_email body), truthy (body_password body) with
  | Some email, Some password =>
      match User_findOne (Some email) db with
      | Some _ => (res_status_json 400 (JError "User already exists"), db)
      | None =>
          let passwordHash := bcrypt_hash password in
          let (newUser, db') := User_create email None passwordHash db in
          let token := jwt_sign (mkPrincipal (user_id newUser) user) now in
          (res_json (JSuccessToken token), db')
      end
  | _, _ => (res_status_json 400 (JError "Email and password required"), db)
  end.

Definition drawers_create (body : Body) (now : Z) : Handler := fun db =>
  match truthy (body_drawerName body), truthy (body_password body) with
  | Some drawerName, Some password =>
      match Drawer_findOne (Some drawerName) db with
      | Some _ => (res_status_json 400 (JError "Drawer already exists"), db)
      | None =>
          let passwordHash := bcrypt_hash password in
          let (newDrawer, db') := Drawer_create drawerName passwordHash db in
          let token := jwt_sign (mkPrincipal (drawer_id newDrawer) drawer) now in
          (res_json (JSuccessToken token), db')
      end
  | _, _ => (res_status_json 400 (JError "Drawer name and password required"), db)
  end.

Definition login (body : Body) (now : Z) : Handler := fun db =>
  match User_findOne (body_email body) db with
  | None => (res_status_json 400 (JError "User not found"), db)
  | Some u =>
      match bcrypt_compare (body_password body) (user_passwordHash u) with
      | inl err => (Rejected err, db)
      | inr false => (res_status_json 400 (JError "Wrong password"), db)
      | inr true =>
          let token := jwt_sign (mkPrincipal (user_id u) user) now in
          (res_json (JToken token), db)
      end
  end.

Definition drawers_login (body : Body) (now : Z) : Handler := fun db =>
  match Drawer_findOne (body_drawerName body) db with
  | None => (res_status_json 400 (JError "Drawer not found"), db)
  | Some d =>
      match bcrypt_compare (body_password body) (drawer_passwordHash d) with
      | inl err => (Rejected err, db)
      | inr false => (res_status_json 400 (JError "Wrong password"), db)
      | inr true =>
          let token := jwt_sign (mkPrincipal (drawer_id d) drawer) now in
          (res_json (JToken token), db)
      end
  end.

Definition get_notes (req_user : Principal) : Handler := fun db =>
  let notes := Note_find (p_type req_user) (p_id req_user) db in
  (res_json (JNotes notes), db).

Definition post_notes (req_user : Principal) (body : Body) (now : Z) : Handler := fun db =>
  let (n, db') := Note_create (p_type req_user) (p_id req_user)
                    (or_empty (body_title body)) (or_empty (body_content body)) now db in
  (res_json (JNote (Some n)), db').

Definition put_notes (req_user : Principal) (id : ObjectId) (body : Body) : Handler := fun db =>
  let (n, db') :=
    Note_findOneAndUpdate
      (fun m => N.eqb (note_id m) id && N.eqb (ownerId m) (p_id req_user))
      (fun m => mkNote (note_id m) (ownerType m) (ownerId m)
                  (update_field (body_title body) (title m))
                  (update_field (body_content body) (content m))
                  (createdAt m) (updatedAt m))
      db in
  (res_json (JNote n), db').

Definition delete_notes (req_user : Principal) (id : ObjectId) : Handler := fun db =>
  let db' := Note_deleteOne
               (fun m => N.eqb (note_id m) id && N.eqb (ownerId m) (p_id req_user)) db in
  (res_json JSuccess, db').

(** The two routes on [req.params.id]: a parameter that does not cast
    makes the query throw, and nothing catches it. *)
Definition put_notes_param (req_user : Principal) (id : RouteId) (body : Body) : Handler :=
  fun db =>
  match id with
  | oid i => put_notes req_user i body db
  | not_an_oid _ => (Rejected "CastError", db)
  end.

Definition delete_notes_param (req_user : Principal) (id : RouteId) : Handler := fun db =>
  match id with
  | oid i => delete_notes req_user i db
  | not_an_oid _ => (Rejected "CastError", db)
  end.

(** The routing table. *)
Definition handle (now : Z) (r : Request) : Handler :=
  match r with
  | POST_register body => register body now
  | POST_drawers body => drawers_create body now
  | POST_login body => login body now
  | POST_drawers_login body => drawers_login body now
  | GET_notes a => auth a now get_notes
  | POST_notes a body => auth a now (fun u => post_notes u body now)
  | PUT_notes a id body => auth a now (fun u => put_notes_param u id body)
  | DELETE_notes a id => auth a now (fun u => delete_notes_param u id)
  end.
End Handlers.
End A.

(** ** The second version (lines 152-360) *)
Module B.
Section Handlers.
Context `{Crypto}.

Definition server_error : Outcome := res_status_json 500 (JError "server error").

Definition signToken (payload : Principal) (now : Z) : string := jwt_sign payload now.

Definition authMiddleware (authorization : option string) (now : Z)
  (next : Principal -> Handler) : Handler := fun db =>
  match truthy authorization with
  | None => (res_status_json 401 (JError "No auth token"), db)
  | Some header =>
      let token := nth_error (split_space header) 1 in
      match match token with Some t => jwt_verify t now | None => None end with
      | Some payload => next payload db
      | None => (res_status_json 401 (JError "Invalid token"), db)
      end
  end.

Definition register (body : Body) (now : Z) : Handler := fun db =>
  match truthy (body_email body), truthy (body_password body) with
  | Some email, Some password =>
      match User_findOne (Some email) db with
      | Some _ => (res_status_json 400 (JError "Email already in use"), db)
      | None =>
          let passwordHash := bcrypt_hash password in
          let (u, db') := User_create email (body_username body) passwordHash db in
          let token := signToken (mkPrincipal (user_id u) user) now in
          (res_json (JTokenUser token (user_id u) (user_email u) (user_username u)), db')
      end
  | _, _ => (res_status_json 400 (JError "email and password required"), db)
  end.

Definition login (body : Body) (now : Z) : Handler := fun db =>
  match truthy (body_email body), truthy (body_password body) with
  | Some email, Some password =>
      match User_findOne (Some email) db with
      | None => (res_status_json 400 (JError "Invalid credentials"), db)
      | Some u =>
          match bcrypt_compare (Some password) (user_passwordHash u) with
          | inl _ => (server_error, db)
          | inr false => (res_status_json 400 (JError "Invalid credentials"), db)
          | inr true =>
              let token := signToken (mkPrincipal (user_id u) user) now in
              (res_json (JTokenUser token (user_id u) (user_email u) (user_username u)), db)
          end
      end
  | _, _ => (res_status_json 400 (JError "email and password required"), db)
  end.

Definition drawers (body : Body) (now : Z) : Handler := fun db =>
  match truthy (body_drawerName body), truthy (body_password body) with
  | Some drawerName, Some password =>
      match Drawer_findOne (Some drawerName) db with
      | Some _ => (res_status_json 400 (JError "Drawer name taken"), db)
      | None =>
          let passwordHash := bcrypt_hash password in
          let (d, db') := Drawer_create drawerName passwordHash db in
          let token := signToken (mkPrincipal (drawer_id d) drawer) now in
          (res_json (JTokenDrawer token (drawer_id d) (drawer_drawerName d)), db')
      end
  | _, _ => (res_status_json 400 (JError "drawerName and password required"), db)
  end.

Definition drawers_login (body : Body) (now : Z) : Handler := fun db =>
  match truthy (body_drawerName body), truthy (body_password body) with
  | Some drawerName, Some password =>
      match Drawer_findOne (Some drawerName) db with
      | None => (res_status_json 400 (JError "Invalid credentials"), db)
      | Some d =>
          match bcrypt_compare (Some password) (drawer_passwordHash d) with
          | inl _ => (server_error, db)
          | inr false => (res_status_json 400 (JError "Invalid credentials"), db)
          | inr true =>
              let token := signToken (mkPrincipal (drawer_id d) drawer) now in
              (res_json (JTokenDrawer token (drawer_id d) (drawer_drawerName d)), db)
          end
      end
  | _, _ => (res_status_json 400 (JError "drawerName and password required"), db)
  end.

Definition get_notes (req_user : Principal) : Handler := fun db =>
  let notes := sort_createdAt_desc (Note_find (p_type req_user) (p_id req_user) db) in
  (res_json (JNotes notes), db).

Definition post_notes (req_user : Principal) (body : Body) (now : Z) : Handler := fun db =>
  let (note, db') := Note_create (p_type req_user) (p_id req_user)
                       (default_empty (body_title body)) (default_empty (body_content body))
                       now db in
  (res_json (JNote (Some note)), db').

(** [String(note.ownerId) !== String(authId) || note.ownerType !== type]. *)
Definition not_owner (note : Note) (req_user : Principal) : bool :=
  negb (N.eqb (ownerId note) (p_id req_user))
  || negb (PrincipalType_eqb (ownerType note) (p_type req_user)).

Definition put_notes (req_user : Principal) (noteId : ObjectId) (body : Body) (now : Z)
  : Handler := fun db =>
  match Note_findById noteId db with
  | None => (res_status_json 404 (JError "not found"), db)
  | Some note =>
      if not_owner note req_user then (res_status_json 403 (JError "forbidden"), db)
      else
        let note' := mkNote (note_id note) (ownerType note) (ownerId note)
                       (body_title body) (body_content body)
                       (createdAt note) (Some now) in
        (res_json (JNote (Some note')), Note_save note' db)
  end.

Definition delete_notes (req_user : Principal) (noteId : ObjectId) : Handler := fun db =>
  match Note_findById noteId db with
  | None => (res_status_json 404 (JError "not found"), db)
  | Some note =>
      if not_owner note req_user then (res_status_json 403 (JError "forbidden"), db)
      else
        (res_json JSuccess, Note_deleteOne (fun m => N.eqb (note_id m) noteId) db)
  end.

(** The two routes on [req.params.id]: a parameter that does not cast
    makes [Note.findById] throw inside the [try], and the [catch]
    answers 500. *)
Definition put_notes_param (req_user : Principal) (id : RouteId) (body : Body) (now : Z)
  : Handler := fun db =>
  match id with
  | oid noteId => put_notes req_user noteId body now db
  | not_an_oid _ => (server_error, db)
  end.

Definition delete_notes_param (req_user : Principal) (id : RouteId) : Handler := fun db =>
  match id with
  | oid noteId => delete_notes req_user noteId db
  | not_an_oid _ => (server_error, db)
  end.

(** The routing table. *)
Definition handle (now : Z) (r : Request) : Handler :=
  match r with
  | POST_register body => register body now
  | POST_drawers body => drawers body now
  | POST_login body => login body now
  | POST_drawers_login body => drawers_login body now
  | GET_notes a => authMiddleware a now get_notes
  | POST_notes a body => authMiddleware a now (fun u => post_notes u body now)
  | PUT_notes a id body => authMiddleware a now (fun u => put_notes_param u id body now)
  | DELETE_notes a id => authMiddleware a now (fun u => delete_notes_param u id)
  end.
End Handlers.
End B.

(** ** Runs of a server *)

(** Which version runs; the first one with the update behaviour of its
    Mongoose release. *)
Inductive Version := VersionA (omitUndefined : bool) | VersionB.

Definition handle `{Crypto} (v : Version) (now : Z) (r : Request) : Handler :=
  match v with
  | VersionA o => A.handle o now r
  | VersionB => B.handle now r
  end.

(** The store after a sequence of requests, each with its clock reading. *)
Fixpoint run `{Crypto} (v : Version) (rs : list (Z * Request)) (db : DB) : DB :=
  match rs with
  | [] => db
  | (now, r) :: rest => run v rest (snd (handle v now r db))
  end.

(** Ids are handed out once: every stored note has an id below the
    counter, and no two notes share one. *)
Definition wf (db : DB) : Prop :=
  Forall (fun n => (note_id n < next_oid db)%N) (Notes db)
  /\ NoDup (map note_id (Notes db)).

(** A toy instance of the primitives, for evaluation on concrete inputs. *)
Definition toy_crypto : Crypto := {|
  bcrypt_hash := fun s => "$2b$10$" ++ s;
  bcrypt_compare_str := fun d h => String.eqb ("$2b$10$" ++ d) h;
  jwt_sign := fun p _ =>
    (match p_type p with user => "u" | drawer => "d" end)
      ++ String (ascii_of_N (p_id p)) "";
  jwt_verify := fun t _ =>
    match t with
    | String "u" (String c "") => Some (mkPrincipal (N_of_ascii c) user)
    | String "d" (String c "") => Some (mkPrincipal (N_of_ascii c) drawer)
    | _ => None
    end |}.

(** How one request may change the note collection and the id counter. *)
Inductive store_step (db db' : DB) : Prop :=
| step_keep :
    Notes db' = Notes db -> (next_oid db <= next_oid db')%N -> store_step db db'
| step_create (n : Note) :
    Notes db' = (Notes db ++ [n])%list -> note_id n = next_oid db ->
    next_oid db' = N.succ (next_oid db) -> store_step db db'
| step_update (f : Note -> bool) (g : Note -> Note) :
    (forall m, find f (Notes db) = Some m ->
               note_id (g m) = note_id m /\ owner (g m) = owner m) ->
    Notes db' = update_first f g (Notes db) -> next_oid db' = next_oid db ->
    store_step db db'
| step_delete (f : Note -> bool) :
    Notes db' = remove_first f (Notes db) -> next_oid db' = next_oid db ->
    store_step db db'.

(** Every note of [db'] that carries an id handed out before [db] was
    already in [db], with the same owner pair. *)
Definition owners_kept (db db' : DB) : Prop :=
  (next_oid db <= next_oid db')%N
  /\ forall n', In n' (Notes db') -> (note_id n' < next_oid db)%N ->
       exists n, In n (Notes db) /\ note_id n = note_id n' /\ owner n = owner n'.

(** The caller's filter [{ ownerType: type, ownerId: id }]. *)
Definition owned_by (p : Principal) (n : Note) : bool :=
  PrincipalType_eqb (ownerType n) (p_type p) && N.eqb (ownerId n) (p_id p).

(** Newest first. *)
Definition newer_or_equal (a b : Note) : Prop := (createdAt b <= createdAt a)%Z.

Definition is_status (code : Z) (o : Outcome) : bool :=
  match o with
  | Sent r => Z.eqb (status r) code
  | Rejected _ => false
  end.

(** ** Further notions for the properties *)

(** No space character occurs in the string. *)
Fixpoint no_space (s : string) : bool :=
  match s with
  | EmptyString => true
  | String c r => negb (Ascii.eqb c " "%char) && no_space r
  end.

(** What one request may do to the whole store. *)
Inductive db_step (db : DB) : DB -> Prop :=
| db_same : db_step db db
| db_user (email : string) (username : option string) (passwordHash : string) :
    email <> "" -> User_findOne (Some email) db = None ->
    db_step db (snd (User_create email username passwordHash db))
| db_drawer (drawerName passwordHash : string) :
    drawerName <> "" -> Drawer_findOne (Some drawerName) db = None ->
    db_step db (snd (Drawer_create drawerName passwordHash db))
| db_note (ot : PrincipalType) (oid : ObjectId) (t c : string) (now : Z) :
    db_step db (snd (Note_create ot oid t c now db))
| db_update (f : Note -> bool) (g : Note -> Note) :
    (forall m, find f (Notes db) = Some m ->
               note_id (g m) = note_id m /\ owner (g m) = owner m) ->
    db_step db (set_Notes (update_first f g (Notes db)) db)
| db_delete (f : Note -> bool) :
    db_step db (set_Notes (remove_first f (Notes db)) db).

(** Every [_id] of the store, over the three collections. *)
Definition ids_of (db : DB) : list ObjectId :=
  (map user_id (Users db) ++ map drawer_id (Drawers db) ++ map note_id (Notes db))%list.

(** Ids are handed out once over the whole store. *)
Definition ids_fresh (db : DB) : Prop :=
  NoDup (ids_of db) /\ Forall (fun i => (i < next_oid db)%N) (ids_of db).

(** No two users share an email, no two drawers a name, and none is empty. *)
Definition credentials_unique (db : DB) : Prop :=
  NoDup (map user_email (Users db))
  /\ NoDup (map drawer_drawerName (Drawers db))
  /\ Forall (fun u => user_email u <> "") (Users db)
  /\ Forall (fun d => drawer_drawerName d <> "") (Drawers db).

(** ** Concrete stores and requests *)

Definition note0_of_user1 : Note := mkNote 0 user 1 (Some "t") (Some "c") 10 None.
Definition db_one_note : DB := mkDB [] [] [note0_of_user1] 3.
Definition user2 : Principal := mkPrincipal 2 user.
Definition body_xy : Body := mkBody None None None None (Some "x") (Some "y").

Definition user1 : Principal := mkPrincipal 1 user.

Definition body_first : Body := mkBody None None None None (Some "first") (Some "1").
Definition body_second : Body := mkBody None None None None (Some "second") (Some "2").

(** The store after [user1] created two notes, at instants 10 and 20. *)
Definition db_two_posts_A : DB :=
  snd (A.post_notes user1 body_second 20 (snd (A.post_notes user1 body_first 10 empty_db))).

(** The [Authorization] header of a caller, with the toy tokens. *)
Definition bearer (p : Principal) : option string :=
  Some ("Bearer " ++ @jwt_sign toy_crypto p 0).

(** The answer to a registration with a taken email. *)
Definition duplicate_email_error (v : Version) : Outcome :=
  match v with
  | VersionA _ => res_status_json 400 (JError "User already exists")
  | VersionB => res_status_json 400 (JError "Email already in use")
  end.

Definition body_a_pw1 : Body := mkBody (Some "a@x.com") None (Some "pw1") None None None.
Definition body_a_wrong : Body := mkBody (Some "a@x.com") None (Some "wrong") None None None.
Definition body_b_pw1 : Body := mkBody (Some "b@x.com") None (Some "pw1") None None None.
Definition body_a_only : Body := mkBody (Some "a@x.com") None None None None None.

(** The store after ["a@x.com"] / ["pw1"] registered, first version. *)
Definition db_registered_A : DB := snd (@A.register toy_crypto body_a_pw1 0 empty_db).
(** The same, second version. *)
Definition db_registered_B : DB := snd (@B.register toy_crypto body_a_pw1 0 empty_db).

Definition body_team1_pw : Body := mkBody None None (Some "pw") (Some "team1") None None.
Definition body_team1_bad : Body := mkBody None None (Some "bad") (Some "team1") None None.
Definition body_team2_pw : Body := mkBody None None (Some "pw") (Some "team2") None None.

(** The store after drawer ["team1"] / ["pw"] was created, second version. *)
Definition db_team1_B : DB := snd (@B.drawers toy_crypto body_team1_pw 0 empty_db).

Definition drawer1 : Principal := mkPrincipal 1 drawer.
Definition note5_of_user2 : Note := mkNote 5 user 2 (Some "u2") (Some "c2") 30 None.
Definition db_two_owners : DB := mkDB [] [] [note0_of_user1; note5_of_user2] 6.

(** * Properties *)

(** ** Lists of documents *)

Lemma PrincipalType_eqb_eq a b : PrincipalType_eqb a b = true <-> a = b.
Proof. destruct a, b; simpl; split; congruence. Qed.

Lemma owned_by_spec p n : owned_by p n = true <-> owner n = principal_pair p.
Proof.
  unfold owned_by, owner, principal_pair.
  rewrite andb_true_iff, PrincipalType_eqb_eq, N.eqb_eq.
  split; [intros [-> ->]; reflexivity | intros [= -> ->]; auto].
Qed.

Lemma not_owner_spec n p : B.not_owner n p = false <-> owner n = principal_pair p.
Proof.
  unfold B.not_owner, owner, principal_pair.
  rewrite orb_false_iff, !negb_false_iff, PrincipalType_eqb_eq, N.eqb_eq.
  split; [intros [-> ->]; reflexivity | intros [= -> ->]; auto].
Qed.

Lemma not_owner_true n p : owner n <> principal_pair p -> B.not_owner n p = true.
Proof.
  intros Hne. destruct (B.not_owner n p) eqn:E; [reflexivity|].
  apply not_owner_spec in E. contradiction.
Qed.

Lemma update_first_none f g ns :
  (forall n, In n ns -> f n = false) -> update_first f g ns = ns.
Proof.
  induction ns as [|n r IH]; simpl; intros Hf; [reflexivity|].
  rewrite (Hf n (or_introl eq_refl)). f_equal. apply IH. intros m Hm. apply Hf. now right.
Qed.

Lemma remove_first_none f ns :
  (forall n, In n ns -> f n = false) -> remove_first f ns = ns.
Proof.
  induction ns as [|n r IH]; simpl; intros Hf; [reflexivity|].
  rewrite (Hf n (or_introl eq_refl)). f_equal. apply IH. intros m Hm. apply Hf. now right.
Qed.

Lemma find_none_all {X} (f : X -> bool) l :
  find f l = None -> forall x, In x l -> f x = false.
Proof. intros Hn x Hx. exact (find_none f l Hn x Hx). Qed.

Lemma update_first_ids f g ns :
  (forall m, find f ns = Some m -> note_id (g m) = note_id m) ->
  map note_id (update_first f g ns) = map note_id ns.
Proof.
  induction ns as [|n r IH]; simpl; intros Hg; [reflexivity|].
  destruct (f n); simpl; [rewrite Hg|rewrite IH]; auto.
Qed.

Lemma update_first_In f g ns n' :
  In n' (update_first f g ns) -> In n' ns \/ exists n, find f ns = Some n /\ n' = g n.
Proof.
  induction ns as [|n r IH]; simpl; [tauto|].
  destruct (f n); simpl.
  - intros [<-|Hin]; [right; exists n; auto | left; auto].
  - intros [<-|Hin]; [left; auto|].
    destruct (IH Hin) as [Hr|[m [Hm ->]]]; [left; auto | right; exists m; auto].
Qed.

Lemma remove_first_In f ns n' : In n' (remove_first f ns) -> In n' ns.
Proof.
  induction ns as [|n r IH]; simpl; [tauto|].
  destruct (f n); simpl; [auto|]. intros [<-|Hin]; auto.
Qed.

Lemma remove_first_NoDup f ns :
  NoDup (map note_id ns) -> NoDup (map note_id (remove_first f ns)).
Proof.
  induction ns as [|n r IH]; simpl; intros Hnd; [constructor|].
  inversion Hnd as [|x l Hnotin Hr]; subst.
  destruct (f n); simpl; [assumption|].
  constructor; [|auto].
  intros Hin. apply Hnotin. apply in_map_iff in Hin as [m [Hid Hm]].
  apply in_map_iff. exists m. split; [assumption|]. eapply remove_first_In; eassumption.
Qed.

(** With distinct ids, the first note with an id is the only one. *)
Lemma findById_unique db i n m :
  NoDup (map note_id (Notes db)) -> Note_findById i db = Some n ->
  In m (Notes db) -> note_id m = i -> m = n.
Proof.
  unfold Note_findById. induction (Notes db) as [|a r IH]; simpl; intros Hnd Hf Hin Hid.
  - contradiction.
  - inversion Hnd as [|x l Hnotin Hr]; subst.
    destruct (N.eqb (note_id a) (note_id m)) eqn:E.
    + injection Hf as <-. destruct Hin as [->|Hin]; [reflexivity|].
      apply N.eqb_eq in E. exfalso. apply Hnotin. rewrite E. now apply in_map.
    + destruct Hin as [->|Hin]; [rewrite N.eqb_refl in E; discriminate|].
      now apply IH.
Qed.

Lemma findById_In db i n : Note_findById i db = Some n -> In n (Notes db) /\ note_id n = i.
Proof.
  unfold Note_findById. intros Hf. apply find_some in Hf as [Hin Hid].
  now apply N.eqb_eq in Hid.
Qed.

(** ** Steps of the store *)

Create HintDb notes.

Lemma store_step_refl db : store_step db db.
Proof. apply step_keep; [reflexivity | apply N.le_refl]. Qed.

#[local] Hint Resolve store_step_refl : notes.

Ltac step_account :=
  repeat match goal with
         | |- context [match ?x with _ => _ end] => destruct x eqn:?; simpl
         end;
  auto with notes;
  try (apply step_keep; simpl; [reflexivity | lia]).

Section Steps.
Context `{Crypto}.

Lemma A_auth_step a now next db :
  (forall p, store_step db (snd (next p db))) ->
  store_step db (snd (A.auth a now next db)).
Proof.
  intros Hn. unfold A.auth.
  destruct (truthy _) as [t|]; simpl; auto with notes.
  destruct (jwt_verify t now); simpl; auto with notes.
Qed.

Lemma B_auth_step a now next db :
  (forall p, store_step db (snd (next p db))) ->
  store_step db (snd (B.authMiddleware a now next db)).
Proof.
  intros Hn. unfold B.authMiddleware.
  destruct (truthy a) as [h|]; [|simpl; auto with notes].
  generalize (nth_error (split_space h) 1).
  intros [t|]; [destruct (jwt_verify t now)|]; simpl; auto with notes.
Qed.

Lemma A_handle_step o now r db : store_step db (snd (A.handle o now r db)).
Proof.
  destruct r; simpl.
  - unfold A.register, User_create. step_account.
  - unfold A.drawers_create, Drawer_create. step_account.
  - unfold A.login. step_account.
  - unfold A.drawers_login. step_account.
  - apply A_auth_step. intros p. simpl. auto with notes.
  - apply A_auth_step. intros p. simpl.
    eapply step_create; simpl; reflexivity.
  - apply A_auth_step. intros p. destruct id as [i|raw]; simpl; auto with notes.
    eapply step_update; simpl; [|reflexivity|reflexivity].
    intros m _. split; reflexivity.
  - apply A_auth_step. intros p. destruct id as [i|raw]; simpl; auto with notes.
    eapply step_delete; simpl; reflexivity.
Qed.

Lemma B_handle_step now r db : store_step db (snd (B.handle now r db)).
Proof.
  destruct r; simpl.
  - unfold B.register, User_create. step_account.
  - unfold B.drawers, Drawer_create. step_account.
  - unfold B.login. step_account.
  - unfold B.drawers_login. step_account.
  - apply B_auth_step. intros p. simpl. auto with notes.
  - apply B_auth_step. intros p. simpl.
    eapply step_create; simpl; reflexivity.
  - apply B_auth_step. intros p. destruct id as [id|raw]; simpl; auto with notes.
    unfold B.put_notes.
    destruct (Note_findById id db) as [n|] eqn:Hf; simpl; auto with notes.
    destruct (B.not_owner n p); simpl; auto with notes.
    destruct (findById_In _ _ _ Hf) as [_ Hid].
    subst id.
    eapply step_update; [|reflexivity|reflexivity].
    simpl. intros m Hm. unfold Note_findById in Hf.
    rewrite Hf in Hm. injection Hm as <-. split; reflexivity.
  - apply B_auth_step. intros p. destruct id as [id|raw]; simpl; auto with notes.
    unfold B.delete_notes.
    destruct (Note_findById id db) as [n|]; simpl; auto with notes.
    destruct (B.not_owner n p); simpl; auto with notes.
    eapply step_delete; simpl; reflexivity.
Qed.

Lemma handle_step v now r db : store_step db (snd (handle v now r db)).
Proof. destruct v; [apply A_handle_step | apply B_handle_step]. Qed.
End Steps.

(** ** Invariants of a run *)

Lemma store_step_wf db db' : store_step db db' -> wf db -> wf db'.
Proof.
  intros Hs [Hlt Hnd]. unfold wf.
  destruct Hs as [Hn Hle | n Hn Hid Hnext | f g Hg Hn Hnext | f Hn Hnext]; rewrite Hn.
  - split; [|assumption].
    eapply Forall_impl; [|exact Hlt]. simpl. intros a Ha. lia.
  - rewrite Hnext. split.
    + apply Forall_app. split.
      * eapply Forall_impl; [|exact Hlt]. simpl. intros a Ha. lia.
      * constructor; [lia | constructor].
    + rewrite map_app. simpl.
      apply (Permutation_NoDup (l := note_id n :: map note_id (Notes db))).
      * apply Permutation_cons_append.
      * constructor; [|assumption].
        intros Hin. apply in_map_iff in Hin as [m [Hm Hin]].
        rewrite Forall_forall in Hlt. specialize (Hlt m Hin). lia.
  - rewrite Hnext. split.
    + apply Forall_forall. intros n' Hin. rewrite Forall_forall in Hlt.
      apply update_first_In in Hin as [Hin|[m [Hm ->]]]; [now apply Hlt|].
      destruct (Hg m Hm) as [-> _]. apply Hlt. now apply find_some in Hm.
    + rewrite update_first_ids; [assumption|]. intros m Hm. now destruct (Hg m Hm).
  - rewrite Hnext. split.
    + apply Forall_forall. intros n' Hin. rewrite Forall_forall in Hlt.
      apply Hlt. eapply remove_first_In; eassumption.
    + now apply remove_first_NoDup.
Qed.

Lemma store_step_owners_kept db db' : store_step db db' -> owners_kept db db'.
Proof.
  intros Hs. unfold owners_kept.
  destruct Hs as [Hn Hle | n Hn Hid Hnext | f g Hg Hn Hnext | f Hn Hnext]; rewrite Hn.
  - split; [assumption|]. intros n' Hin _. exists n'. auto.
  - split; [lia|]. intros n' Hin Hlt. apply in_app_or in Hin as [Hin|[<-|[]]].
    + exists n'. auto.
    + lia.
  - split; [lia|]. intros n' Hin _.
    apply update_first_In in Hin as [Hin|[m [Hm ->]]].
    + exists n'. auto.
    + exists m. destruct (Hg m Hm) as [Hi Ho]. apply find_some in Hm as [Hm _]. auto.
  - split; [lia|]. intros n' Hin _. exists n'.
    split; [eapply remove_first_In; eassumption | auto].
Qed.

Lemma owners_kept_trans a b c : owners_kept a b -> owners_kept b c -> owners_kept a c.
Proof.
  intros [Hab Kab] [Hbc Kbc]. split; [lia|].
  intros n'' Hin Hlt.
  destruct (Kbc n'' Hin) as [n' [Hin' [Hid' Ho']]]; [lia|].
  destruct (Kab n' Hin') as [n [Hin0 [Hid Ho]]]; [lia|].
  exists n. repeat split; congruence.
Qed.

Section Runs.
Context `{Crypto}.

Lemma run_wf v rs db : wf db -> wf (run v rs db).
Proof.
  revert db. induction rs as [|[now r] rest IH]; simpl; intros db Hwf; [assumption|].
  apply IH. eapply store_step_wf; [apply handle_step | assumption].
Qed.

Lemma run_owners_kept v rs db : owners_kept db (run v rs db).
Proof.
  revert db. induction rs as [|[now r] rest IH]; simpl; intros db.
  - apply store_step_owners_kept, store_step_refl.
  - eapply owners_kept_trans; [|apply IH].
    apply store_step_owners_kept, handle_step.
Qed.
End Runs.

Lemma wf_empty_db : wf empty_db.
Proof. split; simpl; constructor. Qed.

(** Every store a server reaches from the empty one is well formed. *)
Lemma reachable_wf `{Crypto} v rs : wf (run v rs empty_db).
Proof. apply run_wf, wf_empty_db. Qed.

(** ** Sorting *)

Lemma insert_desc_perm n l : Permutation (n :: l) (insert_desc n l).
Proof.
  induction l as [|m r IH]; simpl; [reflexivity|].
  destruct (Z.leb (createdAt m) (createdAt n)); [reflexivity|].
  rewrite perm_swap. now constructor.
Qed.

Lemma sort_createdAt_desc_perm l : Permutation l (sort_createdAt_desc l).
Proof.
  induction l as [|n r IH]; simpl; [constructor|].
  rewrite <- insert_desc_perm. now constructor.
Qed.

Lemma insert_desc_sorted n l :
  Sorted newer_or_equal l -> Sorted newer_or_equal (insert_desc n l).
Proof.
  induction l as [|m r IH]; simpl; intros Hs.
  - repeat constructor.
  - destruct (Z.leb (createdAt m) (createdAt n)) eqn:E.
    + constructor; [assumption|]. constructor. unfold newer_or_equal. lia.
    + inversion Hs as [|x y Hr Hhd]; subst. constructor; [auto|].
      destruct r as [|k r']; simpl.
      * constructor. unfold newer_or_equal. lia.
      * destruct (Z.leb (createdAt k) (createdAt n));
          constructor; unfold newer_or_equal; try lia.
        inversion Hhd; subst. assumption.
Qed.

Lemma sort_createdAt_desc_sorted l : Sorted newer_or_equal (sort_createdAt_desc l).
Proof.
  induction l as [|n r IH]; simpl; [constructor | now apply insert_desc_sorted].
Qed.

Lemma newer_or_equal_trans : Relations_1.Transitive newer_or_equal.
Proof. intros a b c. unfold newer_or_equal. lia. Qed.

(** ** Filters of the first version *)

(** With distinct ids, when the note with id [i] has another [ownerId]
    than the caller, the filter [{ _id: i, ownerId: caller }] matches
    nothing. *)
Lemma A_filter_no_match db p i n :
  wf db -> Note_findById i db = Some n -> ownerId n <> p_id p ->
  forall m, In m (Notes db) ->
    N.eqb (note_id m) i && N.eqb (ownerId m) (p_id p) = false.
Proof.
  intros [_ Hnd] Hf Hne m Hin.
  destruct (N.eqb (note_id m) i) eqn:E; [|reflexivity]. simpl.
  apply N.eqb_eq in E.
  rewrite (findById_unique db i n m Hnd Hf Hin E).
  now apply N.eqb_neq.
Qed.

Lemma A_filter_missing db p i :
  Note_findById i db = None ->
  forall m, In m (Notes db) ->
    N.eqb (note_id m) i && N.eqb (ownerId m) (p_id p) = false.
Proof.
  intros Hf m Hin. unfold Note_findById in Hf.
  now rewrite (find_none_all _ _ Hf m Hin).
Qed.

Lemma set_Notes_same db : set_Notes (Notes db) db = db.
Proof. now destruct db. Qed.

Lemma A_put_no_match o p i body db :
  (forall m, In m (Notes db) ->
     N.eqb (note_id m) i && N.eqb (ownerId m) (p_id p) = false) ->
  A.put_notes o p i body db = (res_json (JNote None), db).
Proof.
  intros Hno. unfold A.put_notes, Note_findOneAndUpdate.
  rewrite update_first_none by exact Hno. rewrite set_Notes_same.
  destruct (find _ (Notes db)) as [m|] eqn:Hf; [|reflexivity].
  apply find_some in Hf as [Hin Hm]. rewrite (Hno m Hin) in Hm. discriminate.
Qed.

Lemma A_delete_no_match p i db :
  (forall m, In m (Notes db) ->
     N.eqb (note_id m) i && N.eqb (ownerId m) (p_id p) = false) ->
  A.delete_notes p i db = (res_json JSuccess, db).
Proof.
  intros Hno. unfold A.delete_notes, Note_deleteOne.
  rewrite remove_first_none by exact Hno. now rewrite set_Notes_same.
Qed.

Lemma Note_find_In p db n :
  In n (Note_find (p_type p) (p_id p) db) <-> In n (Notes db) /\ owner n = principal_pair p.
Proof.
  unfold Note_find. rewrite filter_In. fold (owned_by p n). now rewrite owned_by_spec.
Qed.

(** ** Notes of another owner *)

(** C1, as amended.  For a stored note [n] with id [i]:
    in the second version, when the owner pair of [n] differs from the
    caller's principal, update and delete answer 403 Forbidden and leave
    the store as it was; in the first version, which has no Forbidden
    answer, when the [ownerId] of [n] differs from the caller's id (ids
    distinct in the store), update answers 200 with [null], delete
    answers 200 with [{ success: true }], and the store is as it was; in
    both versions the list holds notes of the caller's pair only. *)
Theorem foreign_note_untouched (o : bool) (p : Principal) (i : ObjectId)
    (body : Body) (now : Z) (db : DB) (n : Note) :
  Note_findById i db = Some n ->
  (owner n <> principal_pair p ->
     B.put_notes p i body now db = (res_status_json 403 (JError "forbidden"), db)
     /\ B.delete_notes p i db = (res_status_json 403 (JError "forbidden"), db))
  /\ (wf db -> ownerId n <> p_id p ->
        A.put_notes o p i body db = (res_json (JNote None), db)
        /\ A.delete_notes p i db = (res_json JSuccess, db))
  /\ (forall l, (fst (A.get_notes p db) = res_json (JNotes l)
                 \/ fst (B.get_notes p db) = res_json (JNotes l)) ->
                forall m, In m l -> owner m = principal_pair p).
Proof.
  intros Hf. split; [|split].
  - intros Hne. unfold B.put_notes, B.delete_notes. rewrite Hf.
    now rewrite (not_owner_true n p Hne).
  - intros Hwf Hne. split.
    + apply A_put_no_match. eapply A_filter_no_match; eassumption.
    + apply A_delete_no_match. eapply A_filter_no_match; eassumption.
  - intros l [Hl|Hl] m Hin; simpl in Hl; injection Hl as <-.
    + now apply Note_find_In in Hin.
    + apply (Permutation_in m (Permutation_sym (sort_createdAt_desc_perm _))) in Hin.
      now apply Note_find_In in Hin.
Qed.

Lemma wf_db_one_note : wf db_one_note.
Proof.
  split; simpl.
  - constructor; [simpl; lia | constructor].
  - constructor; [simpl; tauto | constructor].
Qed.

Lemma foreign_note_untouched_witness :
  B.put_notes user2 0 body_xy 20 db_one_note
    = (res_status_json 403 (JError "forbidden"), db_one_note)
  /\ A.put_notes true user2 0 body_xy db_one_note = (res_json (JNote None), db_one_note).
Proof.
  destruct (foreign_note_untouched true user2 0%N body_xy 20%Z db_one_note
              note0_of_user1 eq_refl) as [HB [HA _]].
  split.
  - apply HB. discriminate.
  - apply HA; [exact wf_db_one_note | discriminate].
Defined.

(** C1 as stated fails on the first version: the update of a note of
    another owner is answered 200 with [null] and its delete 200 with
    [{ success: true }], not 403. *)
Lemma foreign_note_not_forbidden_A :
  Note_findById 0 db_one_note = Some note0_of_user1
  /\ owner note0_of_user1 <> principal_pair user2
  /\ is_status 403 (fst (A.put_notes true user2 0 body_xy db_one_note)) = false
  /\ is_status 403 (fst (A.put_notes false user2 0 body_xy db_one_note)) = false
  /\ is_status 403 (fst (A.delete_notes user2 0 db_one_note)) = false
  /\ fst (A.delete_notes user2 0 db_one_note) = res_json JSuccess.
Proof. repeat split; try reflexivity. discriminate. Qed.

(** ** Update *)

(** The note found by id is still the one found after the first match of
    a narrower filter was rewritten in place. *)
Lemma findById_update_first f g ns i n :
  find (fun m => N.eqb (note_id m) i) ns = Some n ->
  f n = true -> (forall m, f m = true -> N.eqb (note_id m) i = true) ->
  note_id (g n) = i ->
  find f ns = Some n
  /\ find (fun m => N.eqb (note_id m) i) (update_first f g ns) = Some (g n).
Proof.
  intros Hf Hfn Himp Hg. induction ns as [|a r IH]; simpl in *; [discriminate|].
  destruct (N.eqb (note_id a) i) eqn:E.
  - injection Hf as ->. rewrite Hfn. simpl. rewrite Hg, N.eqb_refl. auto.
  - destruct (f a) eqn:Fa; [rewrite (Himp a Fa) in E; discriminate|].
    simpl. rewrite E. auto.
Qed.

(** The update of a caller's own note, second version. *)
Lemma B_put_notes_own p i body now db n :
  Note_findById i db = Some n -> owner n = principal_pair p ->
  exists n' db',
    B.put_notes p i body now db = (res_json (JNote (Some n')), db')
    /\ Note_findById i db' = Some n'
    /\ title n' = body_title body /\ content n' = body_content body
    /\ updatedAt n' = Some now
    /\ note_id n' = i /\ owner n' = owner n /\ createdAt n' = createdAt n.
Proof.
  intros Hf Hown. destruct (findById_In _ _ _ Hf) as [Hin Hid].
  unfold B.put_notes. rewrite Hf.
  rewrite (proj2 (not_owner_spec n p) Hown).
  eexists. eexists. split; [reflexivity|].
  split; [|simpl; auto 10].
  unfold Note_findById, Note_save. simpl. rewrite Hid.
  refine (proj2 (findById_update_first _ (fun _ => _) _ i n Hf _ _ _)); simpl.
  - subst i. apply N.eqb_refl.
  - auto.
  - reflexivity.
Qed.

(** The update of a caller's own note, first version. *)
Lemma A_put_notes_own o p i body db n :
  Note_findById i db = Some n -> owner n = principal_pair p ->
  exists n' db',
    A.put_notes o p i body db = (res_json (JNote (Some n')), db')
    /\ Note_findById i db' = Some n'
    /\ (forall t, body_title body = Some t -> title n' = Some t)
    /\ (forall c, body_content body = Some c -> content n' = Some c)
    /\ updatedAt n' = updatedAt n
    /\ note_id n' = i /\ owner n' = owner n /\ createdAt n' = createdAt n.
Proof.
  intros Hf Hown. destruct (findById_In _ _ _ Hf) as [Hin Hid].
  unfold A.put_notes, Note_findOneAndUpdate.
  assert (Hfn : N.eqb (note_id n) i && N.eqb (ownerId n) (p_id p) = true).
  { rewrite Hid, N.eqb_refl. simpl. injection Hown as _ ->. apply N.eqb_refl. }
  match goal with
  | |- context [update_first ?f ?g _] =>
      destruct (findById_update_first f g (Notes db) i n Hf Hfn) as [Hfind Hupd]
  end.
  - intros m Hm. now apply andb_true_iff in Hm.
  - simpl. assumption.
  - rewrite Hfind. simpl.
    eexists. eexists. split; [reflexivity|].
    split; [exact Hupd|]. simpl.
    repeat split; auto.
    + intros t ->. reflexivity.
    + intros c ->. reflexivity.
Qed.

(** C2, as amended.  For a body whose title and content are strings or
    omitted.  Second version: update answers 500 when the id parameter
    does not cast to an ObjectId, 404 NotFound when it casts and no note
    has the id, 403 Forbidden when the note's owner pair differs from
    the caller's, and otherwise stores and returns the note with title
    and content replaced by the supplied values and [updatedAt] set to
    the clock.  First version: there is no NotFound or Forbidden answer;
    when the id parameter does not cast the handler rejects and no
    answer is sent; when it casts, update answers 200 with [null] and
    changes nothing when no note has the id, or (ids distinct) when the
    note's [ownerId] differs from the caller's id; for a note of the
    caller's pair it stores and returns the note with the supplied title
    and content, and sets no [updatedAt]. *)
Theorem update_outcomes (o : bool) (p : Principal) (i : ObjectId) (body : Body)
    (now : Z) (db : DB) :
  (forall raw,
     B.put_notes_param p (not_an_oid raw) body now db
       = (res_status_json 500 (JError "server error"), db)
     /\ A.put_notes_param o p (not_an_oid raw) body db = (Rejected "CastError", db))
  /\ (Note_findById i db = None ->
     B.put_notes_param p (oid i) body now db
       = (res_status_json 404 (JError "not found"), db)
     /\ A.put_notes_param o p (oid i) body db = (res_json (JNote None), db))
  /\ (forall n, Note_findById i db = Some n -> owner n <> principal_pair p ->
        B.put_notes_param p (oid i) body now db
          = (res_status_json 403 (JError "forbidden"), db)
        /\ (wf db -> ownerId n <> p_id p ->
              A.put_notes_param o p (oid i) body db = (res_json (JNote None), db)))
  /\ (forall n, Note_findById i db = Some n -> owner n = principal_pair p ->
        (exists n' db',
            B.put_notes_param p (oid i) body now db = (res_json (JNote (Some n')), db')
            /\ Note_findById i db' = Some n'
            /\ title n' = body_title body /\ content n' = body_content body
            /\ updatedAt n' = Some now
            /\ note_id n' = i /\ owner n' = owner n /\ createdAt n' = createdAt n)
        /\ (exists n' db',
               A.put_notes_param o p (oid i) body db = (res_json (JNote (Some n')), db')
               /\ Note_findById i db' = Some n'
               /\ (forall t, body_title body = Some t -> title n' = Some t)
               /\ (forall c, body_content body = Some c -> content n' = Some c)
               /\ updatedAt n' = updatedAt n
               /\ note_id n' = i /\ owner n' = owner n /\ createdAt n' = createdAt n)).
Proof.
  unfold B.put_notes_param, A.put_notes_param.
  split; [|split; [|split]].
  - intros raw. split; reflexivity.
  - intros Hf. split.
    + unfold B.put_notes. now rewrite Hf.
    + apply A_put_no_match. now apply A_filter_missing.
  - intros n Hf Hne. split.
    + unfold B.put_notes. rewrite Hf. now rewrite (not_owner_true n p Hne).
    + intros Hwf Hid. apply A_put_no_match. eapply A_filter_no_match; eassumption.
  - intros n Hf Hown. split.
    + now apply B_put_notes_own.
    + now apply A_put_notes_own.
Qed.

Lemma update_outcomes_witness :
  B.put_notes_param user2 (not_an_oid "abc") body_xy 20 db_one_note
    = (res_status_json 500 (JError "server error"), db_one_note)
  /\ B.put_notes_param user2 (oid 7) body_xy 20 db_one_note
    = (res_status_json 404 (JError "not found"), db_one_note)
  /\ B.put_notes_param user2 (oid 0) body_xy 20 db_one_note
       = (res_status_json 403 (JError "forbidden"), db_one_note)
  /\ exists n' db',
       B.put_notes_param user1 (oid 0) body_xy 20 db_one_note
         = (res_json (JNote (Some n')), db')
       /\ title n' = Some "x" /\ content n' = Some "y" /\ updatedAt n' = Some 20%Z.
Proof.
  destruct (update_outcomes true user2 7 body_xy 20 db_one_note) as [Hraw [Hmiss _]].
  destruct (update_outcomes true user2 0 body_xy 20 db_one_note) as [_ [_ [Hforb _]]].
  destruct (update_outcomes true user1 0 body_xy 20 db_one_note) as [_ [_ [_ Hown]]].
  split; [exact (proj1 (Hraw "abc"))|].
  split; [exact (proj1 (Hmiss eq_refl))|].
  split.
  - apply (Hforb note0_of_user1 eq_refl). discriminate.
  - destruct (Hown note0_of_user1 eq_refl eq_refl) as [[n' [db' HB]] _].
    exists n', db'. intuition.
Defined.

(** C2 as stated fails on the first version: an update with an id that
    no note has is answered 200 with [null], not 404, and the update of a
    note of another owner is answered 200 with [null], not 403. *)
Lemma update_missing_not_404_A :
  Note_findById 7 db_one_note = None
  /\ A.put_notes true user2 7 body_xy db_one_note = (res_json (JNote None), db_one_note)
  /\ is_status 404 (fst (A.put_notes true user2 7 body_xy db_one_note)) = false
  /\ is_status 404 (fst (A.put_notes false user2 7 body_xy db_one_note)) = false
  /\ is_status 403 (fst (A.put_notes true user2 0 body_xy db_one_note)) = false.
Proof. repeat split. Qed.

(** ** List *)

(** C3, as amended.  In both versions the list answers 200 with exactly
    the stored notes whose owner pair is the caller's (type, id), and
    leaves the store as it was.  The second version returns them newest
    first by [createdAt]; the first version applies no sort and returns
    them in the order of the collection. *)
Theorem list_own_notes (p : Principal) (db : DB) :
  (exists l, B.get_notes p db = (res_json (JNotes l), db)
             /\ Permutation (filter (owned_by p) (Notes db)) l
             /\ StronglySorted newer_or_equal l)
  /\ A.get_notes p db = (res_json (JNotes (filter (owned_by p) (Notes db))), db)
  /\ (forall n, In n (filter (owned_by p) (Notes db))
                <-> In n (Notes db) /\ owner n = principal_pair p).
Proof.
  split; [|split].
  - eexists. split; [reflexivity|]. split.
    + apply sort_createdAt_desc_perm.
    + apply Sorted_StronglySorted; [exact newer_or_equal_trans|].
      apply sort_createdAt_desc_sorted.
  - reflexivity.
  - intros n. apply (Note_find_In p db n).
Qed.

(** C3 as stated fails on the first version: the list holds the older
    note before the newer one. *)
Lemma list_oldest_first_A :
  exists older newer,
    fst (A.get_notes user1 db_two_posts_A) = res_json (JNotes [older; newer])
    /\ (createdAt older < createdAt newer)%Z
    /\ ~ Sorted newer_or_equal [older; newer].
Proof.
  eexists. eexists. split; [reflexivity|]. split; [reflexivity|].
  intros Hs. inversion Hs as [|a l _ Hhd]; subst.
  inversion Hhd as [|b l' Hrel]; subst.
  unfold newer_or_equal in Hrel. simpl in Hrel. lia.
Qed.

(** ** Create, then list *)

(** C9.  For every caller and every title [t] and content [c] (so for
    ["A"] and ["B"]), in both versions the list that follows a create
    holds a note with that title and content, owned by the caller. *)
Theorem create_then_list (p : Principal) (t c : string) (now : Z) (db : DB) :
  let body := mkBody None None None None (Some t) (Some c) in
  (exists l n, fst (A.get_notes p (snd (A.post_notes p body now db))) = res_json (JNotes l)
               /\ In n l /\ title n = Some t /\ content n = Some c
               /\ owner n = principal_pair p)
  /\ (exists l n, fst (B.get_notes p (snd (B.post_notes p body now db))) = res_json (JNotes l)
                  /\ In n l /\ title n = Some t /\ content n = Some c
                  /\ owner n = principal_pair p).
Proof.
  intros body.
  set (n := mkNote (next_oid db) (p_type p) (p_id p) (Some t) (Some c) now None).
  assert (Hin : In n (Note_find (p_type p) (p_id p)
                        (mkDB (Users db) (Drawers db) (Notes db ++ [n])
                              (N.succ (next_oid db))))).
  { apply Note_find_In. simpl. split; [|reflexivity].
    apply in_or_app. right. now left. }
  split.
  - eexists. exists n. split; [reflexivity|]. split; [exact Hin|]. auto.
  - eexists. exists n. split; [reflexivity|]. split; [|auto].
    eapply Permutation_in; [apply sort_createdAt_desc_perm | exact Hin].
Qed.

(** ** Update with omitted fields, second version *)

(** C10.  In the second version, for a note [n] of the caller, an update
    stores and returns the note with title and content equal to the body
    fields as they are, omitted ones included, and [updatedAt] set; with
    an empty body both title and content become absent, whatever they
    were, and the answer is 200. *)
Theorem update_omitted_fields_erase_B (p : Principal) (i : ObjectId) (body : Body)
    (now : Z) (db : DB) (n : Note) :
  Note_findById i db = Some n -> owner n = principal_pair p ->
  (exists n' db',
      B.put_notes p i body now db = (res_json (JNote (Some n')), db')
      /\ Note_findById i db' = Some n'
      /\ title n' = body_title body /\ content n' = body_content body
      /\ updatedAt n' = Some now
      /\ (body_title body = None -> title n' = None)
      /\ (body_content body = None -> content n' = None))
  /\ (exists n' db',
         B.put_notes p i empty_body now db = (res_json (JNote (Some n')), db')
         /\ Note_findById i db' = Some n'
         /\ title n' = None /\ content n' = None /\ updatedAt n' = Some now).
Proof.
  intros Hf Hown. split.
  - destruct (B_put_notes_own p i body now db n Hf Hown)
      as [n' [db' [Hput [Hfind [Ht [Hc [Hu _]]]]]]].
    exists n', db'. repeat split; try assumption; congruence.
  - destruct (B_put_notes_own p i empty_body now db n Hf Hown)
      as [n' [db' [Hput [Hfind [Ht [Hc [Hu _]]]]]]].
    exists n', db'. repeat split; assumption.
Qed.

Lemma update_omitted_fields_erase_B_witness :
  title note0_of_user1 = Some "t" /\ content note0_of_user1 = Some "c"
  /\ exists n' db',
       B.put_notes user1 0 empty_body 20 db_one_note = (res_json (JNote (Some n')), db')
       /\ Note_findById 0 db' = Some n'
       /\ title n' = None /\ content n' = None /\ updatedAt n' = Some 20%Z.
Proof.
  split; [reflexivity|]. split; [reflexivity|].
  exact (proj2 (update_omitted_fields_erase_B user1 0 empty_body 20 db_one_note
                  note0_of_user1 eq_refl eq_refl)).
Defined.

(** ** Delete *)

(** C5.  The two versions disagree on delete.  The first version always
    reports success; for an id that no note has, and (ids distinct) for
    a note with another [ownerId], it reports success and deletes
    nothing.  The second version answers 404 for an id that no note has.
    On that input the two answers differ. *)
Theorem delete_semantics_differ (p : Principal) (i : ObjectId) (db : DB) :
  fst (A.delete_notes p i db) = res_json JSuccess
  /\ (forall n, wf db -> Note_findById i db = Some n -> ownerId n <> p_id p ->
        A.delete_notes p i db = (res_json JSuccess, db))
  /\ (Note_findById i db = None ->
        A.delete_notes p i db = (res_json JSuccess, db)
        /\ B.delete_notes p i db = (res_status_json 404 (JError "not found"), db)
        /\ fst (A.delete_notes p i db) <> fst (B.delete_notes p i db)).
Proof.
  split; [reflexivity|]. split.
  - intros n Hwf Hf Hne. apply A_delete_no_match. eapply A_filter_no_match; eassumption.
  - intros Hf.
    assert (HA : A.delete_notes p i db = (res_json JSuccess, db))
      by (apply A_delete_no_match; now apply A_filter_missing).
    assert (HB : B.delete_notes p i db = (res_status_json 404 (JError "not found"), db))
      by (unfold B.delete_notes; now rewrite Hf).
    repeat split; try assumption.
    rewrite HA, HB. simpl. discriminate.
Qed.

Lemma delete_semantics_differ_witness :
  Note_findById 7 db_one_note = None
  /\ A.delete_notes user2 7 db_one_note = (res_json JSuccess, db_one_note)
  /\ B.delete_notes user2 7 db_one_note
       = (res_status_json 404 (JError "not found"), db_one_note)
  /\ A.delete_notes user2 0 db_one_note = (res_json JSuccess, db_one_note).
Proof.
  destruct (delete_semantics_differ user2 7 db_one_note) as [_ [_ Hmiss]].
  destruct (Hmiss eq_refl) as [HA [HB _]].
  destruct (delete_semantics_differ user2 0 db_one_note) as [_ [Hforeign _]].
  split; [reflexivity|]. split; [exact HA|]. split; [exact HB|].
  apply (Hforeign note0_of_user1 wf_db_one_note eq_refl). discriminate.
Defined.

(** ** The owner pair of a note *)

(** C6.  In a store whose ids were handed out once, a note found by its
    id after any sequence of requests, in either version, has the owner
    pair it had before the sequence: no request, update included,
    changes [ownerType] or [ownerId]. *)
Theorem owner_pair_never_changes `{Crypto} (v : Version) (rs : list (Z * Request))
    (db : DB) (i : ObjectId) (n n' : Note) :
  wf db -> Note_findById i db = Some n ->
  Note_findById i (run v rs db) = Some n' ->
  owner n' = owner n.
Proof.
  intros Hwf Hf Hf'.
  destruct (findById_In _ _ _ Hf) as [Hin Hid].
  destruct (findById_In _ _ _ Hf') as [Hin' Hid'].
  destruct (run_owners_kept v rs db) as [_ Hkept].
  destruct Hwf as [Hlt Hnd].
  assert (Hbound : (note_id n' < next_oid db)%N).
  { rewrite Hid', <- Hid. rewrite Forall_forall in Hlt. now apply Hlt. }
  destruct (Hkept n' Hin' Hbound) as [m [Hm [Hmid Hmo]]].
  rewrite <- Hmo. f_equal.
  apply (findById_unique db i n m Hnd Hf Hm). congruence.
Qed.

Lemma owner_pair_never_changes_witness :
  exists n',
    Note_findById 0 (@run toy_crypto VersionB
                       [(20%Z, PUT_notes (bearer user1) (oid 0) body_xy);
                        (30%Z, POST_notes (bearer user2) body_first);
                        (40%Z, DELETE_notes (bearer user2) (oid 0))]
                       db_one_note) = Some n'
    /\ title n' = Some "x"
    /\ owner n' = owner note0_of_user1.
Proof.
  eexists. split; [vm_compute; reflexivity|]. split; [reflexivity|].
  apply (@owner_pair_never_changes toy_crypto VersionB
           [(20%Z, PUT_notes (bearer user1) (oid 0) body_xy);
            (30%Z, POST_notes (bearer user2) body_first);
            (40%Z, DELETE_notes (bearer user2) (oid 0))]
           db_one_note 0%N).
  - exact wf_db_one_note.
  - reflexivity.
  - vm_compute. reflexivity.
Defined.

(** ** Accounts *)

Lemma truthy_Some x s : truthy x = Some s -> x = Some s /\ s <> "".
Proof.
  destruct x as [t|]; simpl; [|discriminate].
  destruct (String.eqb t "") eqn:E; [discriminate|].
  intros [= ->]. split; [reflexivity|]. now apply String.eqb_neq.
Qed.

Lemma User_findOne_existing db u :
  In u (Users db) -> exists u', User_findOne (Some (user_email u)) db = Some u'.
Proof.
  intros Hin. unfold User_findOne.
  destruct (find _ (Users db)) as [u'|] eqn:Hf; [eauto|].
  pose proof (find_none_all _ _ Hf u Hin) as Hno. simpl in Hno.
  rewrite String.eqb_refl in Hno. discriminate.
Qed.

Section Accounts.
Context `{Crypto}.

Lemma register_existing_email v body now db u password :
  truthy (body_email body) = Some (user_email u) ->
  truthy (body_password body) = Some password ->
  In u (Users db) ->
  handle v now (POST_register body) db = (duplicate_email_error v, db).
Proof.
  intros He Hp Hin. destruct (User_findOne_existing db u Hin) as [u' Hu'].
  destruct v; simpl; unfold A.register, B.register; now rewrite He, Hp, Hu'.
Qed.

(** A registration answered 200 stored one user with the email. *)
Lemma register_ok_stores v body now db r db1 :
  handle v now (POST_register body) db = (Sent r, db1) -> status r = 200%Z ->
  exists u, truthy (body_email body) = Some (user_email u)
            /\ Users db1 = (Users db ++ [u])%list.
Proof.
  intros Hh Hs.
  destruct v; simpl in Hh; unfold A.register, B.register, User_create in Hh;
    destruct (truthy (body_email body)) as [e|];
    destruct (truthy (body_password body)) as [pw|];
    try destruct (User_findOne (Some e) db);
    injection Hh as <- <-; simpl in Hs; try discriminate;
    eexists; (split; [|simpl; reflexivity]); reflexivity.
Qed.
End Accounts.

(** C7.  In both versions, a registration request whose email is
    already held by a stored user is answered 400 and the store, so the
    user collection, is as it was; when the request carries a password
    the answer is the duplicate error.  In particular, after a
    registration answered 200, a second one with the same email is
    answered with the duplicate error and adds no user. *)
Theorem register_duplicate_email `{Crypto} (v : Version) (body : Body) (now : Z)
    (db : DB) :
  (forall u, In u (Users db) -> truthy (body_email body) = Some (user_email u) ->
     (exists j, handle v now (POST_register body) db = (res_status_json 400 j, db))
     /\ (forall password, truthy (body_password body) = Some password ->
           handle v now (POST_register body) db = (duplicate_email_error v, db)))
  /\ (forall body1 now1 db0 r1 password,
        handle v now1 (POST_register body1) db0 = (Sent r1, db) -> status r1 = 200%Z ->
        truthy (body_email body) = truthy (body_email body1) ->
        truthy (body_password body) = Some password ->
        handle v now (POST_register body) db = (duplicate_email_error v, db)
        /\ Users (snd (handle v now (POST_register body) db)) = Users db).
Proof.
  split.
  - intros u Hin He. split.
    + destruct (truthy (body_password body)) as [pw|] eqn:Hp.
      * rewrite (register_existing_email v body now db u pw He Hp Hin).
        destruct v; simpl; eauto.
      * destruct v; simpl; unfold A.register, B.register; rewrite He, Hp; eauto.
    + intros password Hp. eapply register_existing_email; eassumption.
  - intros body1 now1 db0 r1 password Hfirst Hok Hsame Hp.
    destruct (register_ok_stores v body1 now1 db0 r1 db Hfirst Hok) as [u [He Hu]].
    assert (Hdup : handle v now (POST_register body) db = (duplicate_email_error v, db)).
    { apply (register_existing_email v body now db u password); [congruence|assumption|].
      rewrite Hu. apply in_or_app. right. now left. }
    split; [exact Hdup | now rewrite Hdup].
Qed.

Lemma register_duplicate_email_witness :
  @handle toy_crypto VersionB 5 (POST_register body_a_wrong) db_registered_B
    = (res_status_json 400 (JError "Email already in use"), db_registered_B)
  /\ @handle toy_crypto (VersionA true) 5 (POST_register body_a_wrong) db_registered_A
       = (res_status_json 400 (JError "User already exists"), db_registered_A)
  /\ length (Users db_registered_A) = 1%nat.
Proof.
  split; [|split].
  - apply (proj2 (@register_duplicate_email toy_crypto VersionB body_a_wrong 5
                    db_registered_B)
             body_a_pw1 0%Z empty_db (mkResponse 200
               (JTokenUser (@jwt_sign toy_crypto (mkPrincipal 0 user) 0) 0 "a@x.com" None))
             "wrong");
      reflexivity.
  - destruct (proj1 (@register_duplicate_email toy_crypto (VersionA true) body_a_wrong 5
                       db_registered_A)
                (mkUser 0 "a@x.com" None (@bcrypt_hash toy_crypto "pw1"))
                (or_introl eq_refl) eq_refl) as [_ Hdup].
    exact (Hdup "wrong" eq_refl).
  - reflexivity.
Defined.

(** ** Login *)

(** C4, as amended.  For a login request that carries an email and a
    password: in the second version the unknown email and the wrong
    password are answered alike, 400 with ["Invalid credentials"], and
    the store is as it was; in the first version both are answered 400
    and the store is as it was, but the messages differ, ["User not
    found"] and ["Wrong password"]. *)
Theorem login_failures `{Crypto} (body : Body) (now : Z) (db : DB)
    (email password : string) :
  truthy (body_email body) = Some email ->
  truthy (body_password body) = Some password ->
  (User_findOne (Some email) db = None ->
     B.login body now db = (res_status_json 400 (JError "Invalid credentials"), db)
     /\ A.login body now db = (res_status_json 400 (JError "User not found"), db))
  /\ (forall u, User_findOne (Some email) db = Some u ->
        bcrypt_compare_str password (user_passwordHash u) = false ->
        B.login body now db = (res_status_json 400 (JError "Invalid credentials"), db)
        /\ A.login body now db = (res_status_json 400 (JError "Wrong password"), db)).
Proof.
  intros He Hp.
  destruct (truthy_Some _ _ He) as [He' _]. destruct (truthy_Some _ _ Hp) as [Hp' _].
  split.
  - intros Hnone. unfold B.login, A.login. rewrite He, Hp, He', Hnone. auto.
  - intros u Hu Hcmp. unfold B.login, A.login. rewrite He, Hp, He', Hp', Hu.
    unfold bcrypt_compare. rewrite Hcmp. auto.
Qed.

Lemma login_failures_witness :
  @B.login toy_crypto body_b_pw1 5 db_registered_B
    = (res_status_json 400 (JError "Invalid credentials"), db_registered_B)
  /\ @B.login toy_crypto body_a_wrong 5 db_registered_B
       = (res_status_json 400 (JError "Invalid credentials"), db_registered_B).
Proof.
  split.
  - apply (proj1 (@login_failures toy_crypto body_b_pw1 5 db_registered_B
                    "b@x.com" "pw1" eq_refl eq_refl)).
    reflexivity.
  - apply (proj2 (@login_failures toy_crypto body_a_wrong 5 db_registered_B
                    "a@x.com" "wrong" eq_refl eq_refl)
             (mkUser 0 "a@x.com" None (@bcrypt_hash toy_crypto "pw1")));
      reflexivity.
Defined.

(** C4 as stated fails on the first version: after ["a@x.com"] / ["pw1"]
    registered, a login with an unknown email and a login with the wrong
    password get different answers. *)
Lemma login_failures_distinguishable_A :
  fst (@A.login toy_crypto body_b_pw1 5 db_registered_A)
    = res_status_json 400 (JError "User not found")
  /\ fst (@A.login toy_crypto body_a_wrong 5 db_registered_A)
       = res_status_json 400 (JError "Wrong password")
  /\ fst (@A.login toy_crypto body_b_pw1 5 db_registered_A)
       <> fst (@A.login toy_crypto body_a_wrong 5 db_registered_A).
Proof. split; [reflexivity|]. split; [reflexivity|]. discriminate. Qed.

(** ** Missing fields *)

Section Validation.
Context `{Crypto}.

(** Where the code checks the required fields: both registrations of
    the first version and the four account routes of the second. *)
Lemma account_validation body now db :
  (truthy (body_email body) = None \/ truthy (body_password body) = None ->
     A.register body now db
       = (res_status_json 400 (JError "Email and password required"), db)
     /\ B.register body now db
          = (res_status_json 400 (JError "email and password required"), db)
     /\ B.login body now db
          = (res_status_json 400 (JError "email and password required"), db))
  /\ (truthy (body_drawerName body) = None \/ truthy (body_password body) = None ->
        A.drawers_create body now db
          = (res_status_json 400 (JError "Drawer name and password required"), db)
        /\ B.drawers body now db
             = (res_status_json 400 (JError "drawerName and password required"), db)
        /\ B.drawers_login body now db
             = (res_status_json 400 (JError "drawerName and password required"), db)).
Proof.
  split; intros [Hn|Hn];
    unfold A.register, B.register, B.login, A.drawers_create, B.drawers, B.drawers_login;
    rewrite Hn;
    repeat match goal with
           | |- context [match truthy ?x with _ => _ end] => destruct (truthy x)
           end; auto.
Qed.

(** The logins of the first version hand an omitted password to
    [bcrypt.compare]. *)
Lemma A_login_no_password body now db u :
  User_findOne (body_email body) db = Some u -> body_password body = None ->
  A.login body now db = (Rejected "data and hash arguments required", db).
Proof. intros Hu Hp. unfold A.login. now rewrite Hu, Hp. Qed.

Lemma A_drawers_login_no_password body now db d :
  Drawer_findOne (body_drawerName body) db = Some d -> body_password body = None ->
  A.drawers_login body now db = (Rejected "data and hash arguments required", db).
Proof. intros Hd Hp. unfold A.drawers_login. now rewrite Hd, Hp. Qed.
End Validation.

(** C8 fails on the login of the first version.  After ["a@x.com"] /
    ["pw1"] registered, a login whose body is [{ email: "a@x.com" }] gets
    no answer: the omitted password reaches [bcrypt.compare], which
    rejects, and nothing catches it.  With the email omitted as well the
    answer is 400 ["User not found"], not the validation error. *)
Theorem login_without_password_A :
  truthy (body_password body_a_only) = None
  /\ @A.login toy_crypto body_a_only 5 db_registered_A
       = (Rejected "data and hash arguments required", db_registered_A)
  /\ is_status 400 (fst (@A.login toy_crypto body_a_only 5 db_registered_A)) = false
  /\ @A.login toy_crypto empty_body 5 db_registered_A
       = (res_status_json 400 (JError "User not found"), db_registered_A)
  /\ @B.login toy_crypto body_a_only 5 db_registered_B
       = (res_status_json 400 (JError "email and password required"), db_registered_B).
Proof. repeat split. Qed.

(** * Further properties of the code *)

(** ** The [Authorization] header *)

Lemma split_space_nonempty s : split_space s <> [].
Proof.
  destruct s as [|c r]; simpl; [discriminate|].
  destruct (Ascii.eqb c " "); [discriminate|].
  destruct (split_space r); discriminate.
Qed.

(** X1.  Joining the pieces of [s.split(" ")] with a space gives [s]
    back, and the split never yields an empty array. *)
Theorem split_space_join (s : string) :
  String.concat " " (split_space s) = s /\ split_space s <> [].
Proof.
  split; [|apply split_space_nonempty].
  induction s as [|c r IH]; simpl; [reflexivity|].
  destruct (Ascii.eqb c " ") eqn:E.
  - apply Ascii.eqb_eq in E. subst c.
    destruct (split_space r) as [|h t] eqn:Hs; [now apply split_space_nonempty in Hs|].
    change (String.concat " " ("" :: h :: t)) with (" " ++ String.concat " " (h :: t)).
    now rewrite IH.
  - destruct (split_space r) as [|h t] eqn:Hs; [now apply split_space_nonempty in Hs|].
    destruct t as [|h' t'].
    + simpl in *. now rewrite IH.
    + change (String.concat " " (String c h :: h' :: t'))
        with (String c (String.concat " " (h :: h' :: t'))).
      now rewrite IH.
Qed.

Lemma split_space_no_space s : no_space s = true -> split_space s = [s].
Proof.
  induction s as [|c r IH]; simpl; [reflexivity|].
  intros Hn. apply andb_true_iff in Hn as [Hc Hr].
  apply negb_true_iff in Hc. rewrite Hc, (IH Hr). reflexivity.
Qed.

Lemma split_space_word w r :
  no_space w = true -> split_space (w ++ " " ++ r) = w :: split_space r.
Proof.
  induction w as [|c w' IH]; simpl; [reflexivity|].
  intros Hn. apply andb_true_iff in Hn as [Hc Hr].
  apply negb_true_iff in Hc. rewrite Hc. simpl in IH. rewrite (IH Hr). reflexivity.
Qed.

Lemma header_token w t :
  no_space w = true -> no_space t = true ->
  nth_error (split_space (w ++ " " ++ t)) 1 = Some t.
Proof.
  intros Hw Ht. rewrite (split_space_word w t Hw), (split_space_no_space t Ht). reflexivity.
Qed.

Lemma append_space_truthy w t : truthy (Some (w ++ " " ++ t)) = Some (w ++ " " ++ t).
Proof. destruct w; reflexivity. Qed.

Lemma truthy_nonempty t : t <> "" -> truthy (Some t) = Some t.
Proof. intros Hne. simpl. apply String.eqb_neq in Hne. now rewrite Hne. Qed.

Section Auth.
Context `{Crypto}.

(** X2.  A header made of one word, a space and a non-empty token
    without spaces that [jwt.verify] accepts lets the request through
    with the decoded payload as [req.user], in both versions; the word
    itself is not looked at. *)
Theorem auth_accepts (w t : string) (p : Principal) (now : Z)
    (next : Principal -> Handler) (db : DB) :
  no_space w = true -> no_space t = true -> t <> "" ->
  jwt_verify t now = Some p ->
  A.auth (Some (w ++ " " ++ t)) now next db = next p db
  /\ B.authMiddleware (Some (w ++ " " ++ t)) now next db = next p db.
Proof.
  intros Hw Ht Hne Hv. unfold A.auth, B.authMiddleware.
  rewrite append_space_truthy, (header_token w t Hw Ht), (truthy_nonempty t Hne), Hv.
  auto.
Qed.

(** X3.  Whatever the header, the middleware of either version either
    runs the handler with a payload that [jwt.verify] returned for some
    token, or answers 401 and leaves the store as it was. *)
Theorem auth_runs_verified_only (a : option string) (now : Z)
    (next : Principal -> Handler) (db : DB) :
  ((exists t p, jwt_verify t now = Some p /\ A.auth a now next db = next p db)
   \/ (exists msg, A.auth a now next db = (res_status_json 401 (JError msg), db)))
  /\ ((exists t p, jwt_verify t now = Some p
                   /\ B.authMiddleware a now next db = next p db)
      \/ (exists msg, B.authMiddleware a now next db
                        = (res_status_json 401 (JError msg), db))).
Proof.
  split.
  - unfold A.auth. destruct (truthy _) as [t|]; [|eauto].
    destruct (jwt_verify t now) as [p|] eqn:Hv; eauto.
  - unfold B.authMiddleware. destruct (truthy a) as [h|]; [|eauto].
    destruct (nth_error (split_space h) 1) as [t|]; [|eauto].
    destruct (jwt_verify t now) as [p|] eqn:Hv; eauto.
Qed.

(** X4.  A request to any note route without an [Authorization] header
    is answered 401 (["No token"] by the first version, ["No auth token"]
    by the second) and changes nothing; a header of a single word is
    answered 401 as well, ["No token"] by the first version and
    ["Invalid token"] by the second. *)
Theorem note_routes_need_token (now : Z) (id : RouteId) (body : Body) (db : DB)
    (r : Request) :
  In r [GET_notes None; POST_notes None body; PUT_notes None id body; DELETE_notes None id] ->
  A.handle true now r db = (res_status_json 401 (JError "No token"), db)
  /\ A.handle false now r db = (res_status_json 401 (JError "No token"), db)
  /\ B.handle now r db = (res_status_json 401 (JError "No auth token"), db)
  /\ (forall w next, no_space w = true -> w <> "" ->
        A.auth (Some w) now next db = (res_status_json 401 (JError "No token"), db)
        /\ B.authMiddleware (Some w) now next db
             = (res_status_json 401 (JError "Invalid token"), db)).
Proof.
  intros Hin. simpl in Hin.
  assert (Hw : forall w next, no_space w = true -> w <> "" ->
            A.auth (Some w) now next db = (res_status_json 401 (JError "No token"), db)
            /\ B.authMiddleware (Some w) now next db
                 = (res_status_json 401 (JError "Invalid token"), db)).
  { intros w next Hn Hne. unfold A.auth, B.authMiddleware.
    rewrite (truthy_nonempty w Hne), (split_space_no_space w Hn). auto. }
  destruct Hin as [<-|[<-|[<-|[<-|[]]]]];
    (split; [reflexivity|]); (split; [reflexivity|]); (split; [reflexivity|]); exact Hw.
Qed.
End Auth.

Lemma auth_accepts_witness :
  @A.auth toy_crypto (bearer user1) 5 A.get_notes db_one_note
    = A.get_notes user1 db_one_note
  /\ @B.authMiddleware toy_crypto (bearer user1) 5 B.get_notes db_one_note
       = B.get_notes user1 db_one_note.
Proof.
  assert (Hne : @jwt_sign toy_crypto user1 0 <> "") by discriminate.
  split.
  - exact (proj1 (@auth_accepts toy_crypto "Bearer" (@jwt_sign toy_crypto user1 0) user1 5
                    A.get_notes db_one_note eq_refl eq_refl Hne eq_refl)).
  - exact (proj2 (@auth_accepts toy_crypto "Bearer" (@jwt_sign toy_crypto user1 0) user1 5
                    B.get_notes db_one_note eq_refl eq_refl Hne eq_refl)).
Defined.

Lemma note_routes_need_token_witness :
  @B.handle toy_crypto 5 (DELETE_notes None (oid 0)) db_one_note
    = (res_status_json 401 (JError "No auth token"), db_one_note)
  /\ @A.auth toy_crypto (Some "Bearer") 5 A.get_notes db_one_note
       = (res_status_json 401 (JError "No token"), db_one_note).
Proof.
  destruct (@note_routes_need_token toy_crypto 5 (oid 0) empty_body db_one_note
              (DELETE_notes None (oid 0))) as [_ [_ [HB Hw]]].
  - simpl. auto.
  - split; [exact HB|]. apply Hw; [reflexivity | discriminate].
Defined.

(** ** Registration and login *)

Lemma find_app_new {X} (f : X -> bool) l x :
  find f l = None -> f x = true -> find f (l ++ [x]) = Some x.
Proof.
  induction l as [|a r IH]; simpl; intros Hn Hx; [now rewrite Hx|].
  destruct (f a); [discriminate | auto].
Qed.

Lemma Drawer_findOne_existing db d :
  In d (Drawers db) -> exists d', Drawer_findOne (Some (drawer_drawerName d)) db = Some d'.
Proof.
  intros Hin. unfold Drawer_findOne.
  destruct (find _ (Drawers db)) as [d'|] eqn:Hf; [eauto|].
  pose proof (find_none_all _ _ Hf d Hin) as Hno. simpl in Hno.
  rewrite String.eqb_refl in Hno. discriminate.
Qed.

Section Sessions.
Context `{Crypto}.

Lemma A_register_new body now db email password :
  truthy (body_email body) = Some email -> truthy (body_password body) = Some password ->
  User_findOne (Some email) db = None ->
  A.register body now db
  = (res_json (JSuccessToken (jwt_sign (mkPrincipal (next_oid db) user) now)),
     mkDB (Users db ++ [mkUser (next_oid db) email None (bcrypt_hash password)])
          (Drawers db) (Notes db) (N.succ (next_oid db))).
Proof. intros He Hp Hn. unfold A.register. now rewrite He, Hp, Hn. Qed.

Lemma B_register_new body now db email password :
  truthy (body_email body) = Some email -> truthy (body_password body) = Some password ->
  User_findOne (Some email) db = None ->
  B.register body now db
  = (res_json (JTokenUser (jwt_sign (mkPrincipal (next_oid db) user) now)
                 (next_oid db) email (body_username body)),
     mkDB (Users db ++ [mkUser (next_oid db) email (body_username body)
                          (bcrypt_hash password)])
          (Drawers db) (Notes db) (N.succ (next_oid db))).
Proof. intros He Hp Hn. unfold B.register. now rewrite He, Hp, Hn. Qed.

Lemma A_drawers_create_new body now db name password :
  truthy (body_drawerName body) = Some name ->
  truthy (body_password body) = Some password ->
  Drawer_findOne (Some name) db = None ->
  A.drawers_create body now db
  = (res_json (JSuccessToken (jwt_sign (mkPrincipal (next_oid db) drawer) now)),
     mkDB (Users db) (Drawers db ++ [mkDrawer (next_oid db) name (bcrypt_hash password)])
          (Notes db) (N.succ (next_oid db))).
Proof. intros He Hp Hn. unfold A.drawers_create. now rewrite He, Hp, Hn. Qed.

Lemma B_drawers_new body now db name password :
  truthy (body_drawerName body) = Some name ->
  truthy (body_password body) = Some password ->
  Drawer_findOne (Some name) db = None ->
  B.drawers body now db
  = (res_json (JTokenDrawer (jwt_sign (mkPrincipal (next_oid db) drawer) now)
                 (next_oid db) name),
     mkDB (Users db) (Drawers db ++ [mkDrawer (next_oid db) name (bcrypt_hash password)])
          (Notes db) (N.succ (next_oid db))).
Proof. intros He Hp Hn. unfold B.drawers. now rewrite He, Hp, Hn. Qed.

Lemma login_ok body now db email password u :
  truthy (body_email body) = Some email -> truthy (body_password body) = Some password ->
  User_findOne (Some email) db = Some u ->
  bcrypt_compare_str password (user_passwordHash u) = true ->
  A.login body now db
  = (res_json (JToken (jwt_sign (mkPrincipal (user_id u) user) now)), db)
  /\ B.login body now db
     = (res_json (JTokenUser (jwt_sign (mkPrincipal (user_id u) user) now)
                    (user_id u) (user_email u) (user_username u)), db).
Proof.
  intros He Hp Hu Hc.
  destruct (truthy_Some _ _ He) as [He' _]. destruct (truthy_Some _ _ Hp) as [Hp' _].
  unfold A.login, B.login, B.signToken, bcrypt_compare.
  now rewrite He, Hp, He', Hp', Hu, Hc.
Qed.

Lemma drawers_login_ok body now db name password d :
  truthy (body_drawerName body) = Some name ->
  truthy (body_password body) = Some password ->
  Drawer_findOne (Some name) db = Some d ->
  bcrypt_compare_str password (drawer_passwordHash d) = true ->
  A.drawers_login body now db
  = (res_json (JToken (jwt_sign (mkPrincipal (drawer_id d) drawer) now)), db)
  /\ B.drawers_login body now db
     = (res_json (JTokenDrawer (jwt_sign (mkPrincipal (drawer_id d) drawer) now)
                    (drawer_id d) (drawer_drawerName d)), db).
Proof.
  intros He Hp Hu Hc.
  destruct (truthy_Some _ _ He) as [He' _]. destruct (truthy_Some _ _ Hp) as [Hp' _].
  unfold A.drawers_login, B.drawers_login, B.signToken, bcrypt_compare.
  now rewrite He, Hp, He', Hp', Hu, Hc.
Qed.

(** X5.  A registration with an email no stored user has, and a
    password, is answered 200 with a token signed for [{ type: "user",
    id }] where [id] is the new user's [_id]; the store gains exactly one
    user, last in the collection, whose [passwordHash] is
    [bcrypt.hash(password)]; drawers and notes are as they were.  The
    first version drops [username], the second stores it. *)
Theorem register_stores_hash (body : Body) (now : Z) (db : DB) (email password : string) :
  truthy (body_email body) = Some email -> truthy (body_password body) = Some password ->
  User_findOne (Some email) db = None ->
  (exists db', A.register body now db
               = (res_json (JSuccessToken (jwt_sign (mkPrincipal (next_oid db) user) now)), db')
      /\ Users db' = (Users db ++ [mkUser (next_oid db) email None (bcrypt_hash password)])%list
      /\ Drawers db' = Drawers db /\ Notes db' = Notes db
      /\ User_findOne (Some email) db'
         = Some (mkUser (next_oid db) email None (bcrypt_hash password)))
  /\ (exists db', B.register body now db
                  = (res_json (JTokenUser (jwt_sign (mkPrincipal (next_oid db) user) now)
                                 (next_oid db) email (body_username body)), db')
        /\ Users db' = (Users db ++ [mkUser (next_oid db) email (body_username body)
                                       (bcrypt_hash password)])%list
        /\ Drawers db' = Drawers db /\ Notes db' = Notes db
        /\ User_findOne (Some email) db'
           = Some (mkUser (next_oid db) email (body_username body) (bcrypt_hash password))).
Proof.
  intros He Hp Hn. split; eexists.
  - rewrite (A_register_new body now db email password He Hp Hn).
    split; [reflexivity|]. simpl. repeat split.
    unfold User_findOne. simpl. apply find_app_new; [exact Hn|]. simpl. apply String.eqb_refl.
  - rewrite (B_register_new body now db email password He Hp Hn).
    split; [reflexivity|]. simpl. repeat split.
    unfold User_findOne. simpl. apply find_app_new; [exact Hn|]. simpl. apply String.eqb_refl.
Qed.

(** X6.  Register, then log in: when [bcrypt.compare] accepts a password
    against its own hash, a login with the email and password of a
    registration that was just accepted is answered 200 with a token
    signed for the same principal as the registration's, and the store
    is as the registration left it.  Both versions. *)
Theorem register_then_login (body : Body) (now now' : Z) (db : DB)
    (email password : string) :
  truthy (body_email body) = Some email -> truthy (body_password body) = Some password ->
  User_findOne (Some email) db = None ->
  bcrypt_compare_str password (bcrypt_hash password) = true ->
  let me := mkPrincipal (next_oid db) user in
  (let db1 := snd (A.register body now db) in
   fst (A.register body now db) = res_json (JSuccessToken (jwt_sign me now))
   /\ A.login body now' db1 = (res_json (JToken (jwt_sign me now')), db1))
  /\ (let db1 := snd (B.register body now db) in
      fst (B.register body now db)
        = res_json (JTokenUser (jwt_sign me now) (next_oid db) email (body_username body))
      /\ B.login body now' db1
         = (res_json (JTokenUser (jwt_sign me now') (next_oid db) email
                        (body_username body)), db1)).
Proof.
  intros He Hp Hn Hc me. split.
  - rewrite (A_register_new body now db email password He Hp Hn). simpl.
    split; [reflexivity|].
    refine (proj1 (login_ok body now' _ email password
                     (mkUser (next_oid db) email None (bcrypt_hash password))
                     He Hp _ Hc)).
    unfold User_findOne. simpl. apply find_app_new; [exact Hn|]. simpl. apply String.eqb_refl.
  - rewrite (B_register_new body now db email password He Hp Hn). simpl.
    split; [reflexivity|].
    refine (proj2 (login_ok body now' _ email password
                     (mkUser (next_oid db) email (body_username body) (bcrypt_hash password))
                     He Hp _ Hc)).
    unfold User_findOne. simpl. apply find_app_new; [exact Hn|]. simpl. apply String.eqb_refl.
Qed.

(** X7.  A login (user or drawer) whose email or name is stored and
    whose password [bcrypt.compare] accepts against the stored hash is
    answered 200 with a token signed for the stored account's [_id] and
    its kind, and changes nothing.  Both versions. *)
Theorem login_token_principal (body : Body) (now : Z) (db : DB) (password : string) :
  truthy (body_password body) = Some password ->
  (forall email u,
     truthy (body_email body) = Some email -> User_findOne (Some email) db = Some u ->
     bcrypt_compare_str password (user_passwordHash u) = true ->
     A.login body now db
     = (res_json (JToken (jwt_sign (mkPrincipal (user_id u) user) now)), db)
     /\ B.login body now db
        = (res_json (JTokenUser (jwt_sign (mkPrincipal (user_id u) user) now)
                       (user_id u) (user_email u) (user_username u)), db))
  /\ (forall name d,
        truthy (body_drawerName body) = Some name ->
        Drawer_findOne (Some name) db = Some d ->
        bcrypt_compare_str password (drawer_passwordHash d) = true ->
        A.drawers_login body now db
        = (res_json (JToken (jwt_sign (mkPrincipal (drawer_id d) drawer) now)), db)
        /\ B.drawers_login body now db
           = (res_json (JTokenDrawer (jwt_sign (mkPrincipal (drawer_id d) drawer) now)
                          (drawer_id d) (drawer_drawerName d)), db)).
Proof.
  intros Hp. split.
  - intros email u He Hu Hc. eapply login_ok; eassumption.
  - intros name d He Hd Hc. eapply drawers_login_ok; eassumption.
Qed.
End Sessions.

Lemma register_stores_hash_witness :
  exists db',
    @B.register toy_crypto body_a_pw1 0 empty_db
      = (res_json (JTokenUser (@jwt_sign toy_crypto (mkPrincipal 0 user) 0) 0 "a@x.com" None),
         db')
    /\ User_findOne (Some "a@x.com") db' = Some (mkUser 0 "a@x.com" None "$2b$10$pw1").
Proof.
  destruct (@register_stores_hash toy_crypto body_a_pw1 0 empty_db "a@x.com" "pw1"
              eq_refl eq_refl eq_refl) as [_ [db' [Heq [_ [_ [_ Hf]]]]]].
  exists db'. split; [exact Heq | exact Hf].
Defined.

Lemma register_then_login_witness :
  @A.login toy_crypto body_a_pw1 9 db_registered_A
    = (res_json (JToken (@jwt_sign toy_crypto (mkPrincipal 0 user) 9)), db_registered_A)
  /\ @B.login toy_crypto body_a_pw1 9 db_registered_B
       = (res_json (JTokenUser (@jwt_sign toy_crypto (mkPrincipal 0 user) 9) 0 "a@x.com" None),
          db_registered_B).
Proof.
  destruct (@register_then_login toy_crypto body_a_pw1 0 9 empty_db "a@x.com" "pw1"
              eq_refl eq_refl eq_refl eq_refl) as [[_ HA] [_ HB]].
  split; [exact HA | exact HB].
Defined.

Lemma login_token_principal_witness :
  @B.login toy_crypto body_a_pw1 9 db_registered_B
    = (res_json (JTokenUser (@jwt_sign toy_crypto (mkPrincipal 0 user) 9) 0 "a@x.com" None),
       db_registered_B).
Proof.
  exact (proj2 (proj1 (@login_token_principal toy_crypto body_a_pw1 9 db_registered_B "pw1"
                         eq_refl)
                  "a@x.com" (mkUser 0 "a@x.com" None "$2b$10$pw1") eq_refl eq_refl eq_refl)).
Defined.

(** ** Drawers *)

Section DrawerAccounts.
Context `{Crypto}.

(** X8.  Creating a drawer whose name a stored drawer already has is
    answered 400 and stores nothing; with a password in the request the
    message is ["Drawer already exists"] (first version) or ["Drawer name
    taken"] (second).  A creation with a free name and a password is
    answered 200 with a token for [{ type: "drawer", id }] of the new
    drawer; in each version the drawer is appended with the hash of the
    password and is then found by its name. *)
Theorem drawer_names_unique_on_create (body : Body) (now : Z) (db : DB)
    (name password : string) :
  truthy (body_drawerName body) = Some name ->
  truthy (body_password body) = Some password ->
  (forall d, In d (Drawers db) -> drawer_drawerName d = name ->
     A.drawers_create body now db
       = (res_status_json 400 (JError "Drawer already exists"), db)
     /\ B.drawers body now db = (res_status_json 400 (JError "Drawer name taken"), db))
  /\ (Drawer_findOne (Some name) db = None ->
        let d := mkDrawer (next_oid db) name (bcrypt_hash password) in
        let me := mkPrincipal (next_oid db) drawer in
        fst (A.drawers_create body now db) = res_json (JSuccessToken (jwt_sign me now))
        /\ fst (B.drawers body now db)
           = res_json (JTokenDrawer (jwt_sign me now) (next_oid db) name)
        /\ Drawers (snd (A.drawers_create body now db)) = (Drawers db ++ [d])%list
        /\ Drawer_findOne (Some name) (snd (A.drawers_create body now db)) = Some d
        /\ Drawers (snd (B.drawers body now db)) = (Drawers db ++ [d])%list
        /\ Drawer_findOne (Some name) (snd (B.drawers body now db)) = Some d).
Proof.
  intros He Hp. split.
  - intros d Hin Hname. subst name.
    destruct (Drawer_findOne_existing db d Hin) as [d' Hd'].
    unfold A.drawers_create, B.drawers. now rewrite He, Hp, Hd'.
  - intros Hn d me.
    rewrite (A_drawers_create_new body now db name password He Hp Hn).
    rewrite (B_drawers_new body now db name password He Hp Hn). simpl.
    assert (Hfound : find (fun x => matches_str (Some name) (drawer_drawerName x))
                       (Drawers db ++ [d]) = Some d).
    { apply find_app_new; [exact Hn|]. simpl. apply String.eqb_refl. }
    repeat split; exact Hfound.
Qed.

(** X9.  A drawer login that carries a name and a password and fails is
    answered 400 and changes nothing.  The second version gives the same
    ["Invalid credentials"] for an unknown name and for a wrong password;
    the first version tells them apart, ["Drawer not found"] and ["Wrong
    password"]. *)
Theorem drawers_login_failures (body : Body) (now : Z) (db : DB) (name password : string) :
  truthy (body_drawerName body) = Some name ->
  truthy (body_password body) = Some password ->
  (Drawer_findOne (Some name) db = None ->
     B.drawers_login body now db = (res_status_json 400 (JError "Invalid credentials"), db)
     /\ A.drawers_login body now db = (res_status_json 400 (JError "Drawer not found"), db))
  /\ (forall d, Drawer_findOne (Some name) db = Some d ->
        bcrypt_compare_str password (drawer_passwordHash d) = false ->
        B.drawers_login body now db
          = (res_status_json 400 (JError "Invalid credentials"), db)
        /\ A.drawers_login body now db
           = (res_status_json 400 (JError "Wrong password"), db)).
Proof.
  intros He Hp.
  destruct (truthy_Some _ _ He) as [He' _]. destruct (truthy_Some _ _ Hp) as [Hp' _].
  split.
  - intros Hnone. unfold B.drawers_login, A.drawers_login. rewrite He, Hp, He', Hnone. auto.
  - intros d Hd Hcmp. unfold B.drawers_login, A.drawers_login.
    rewrite He, Hp, He', Hp', Hd. unfold bcrypt_compare. rewrite Hcmp. auto.
Qed.
End DrawerAccounts.

Lemma drawer_names_unique_on_create_witness :
  @B.drawers toy_crypto body_team1_bad 5 db_team1_B
    = (res_status_json 400 (JError "Drawer name taken"), db_team1_B)
  /\ Drawer_findOne (Some "team2") (snd (@B.drawers toy_crypto body_team2_pw 5 db_team1_B))
       = Some (mkDrawer 1 "team2" "$2b$10$pw").
Proof.
  split.
  - exact (proj2 (proj1 (@drawer_names_unique_on_create toy_crypto body_team1_bad 5
                           db_team1_B "team1" "bad" eq_refl eq_refl)
                    (mkDrawer 0 "team1" "$2b$10$pw") (or_introl eq_refl) eq_refl)).
  - destruct (proj2 (@drawer_names_unique_on_create toy_crypto body_team2_pw 5
                       db_team1_B "team2" "pw" eq_refl eq_refl) eq_refl)
      as [_ [_ [_ [_ [_ Hf]]]]].
    exact Hf.
Defined.

Lemma drawers_login_failures_witness :
  @B.drawers_login toy_crypto body_team2_pw 5 db_team1_B
    = (res_status_json 400 (JError "Invalid credentials"), db_team1_B)
  /\ @B.drawers_login toy_crypto body_team1_bad 5 db_team1_B
       = (res_status_json 400 (JError "Invalid credentials"), db_team1_B)
  /\ @A.drawers_login toy_crypto body_team1_bad 5 db_team1_B
       = (res_status_json 400 (JError "Wrong password"), db_team1_B).
Proof.
  destruct (@drawers_login_failures toy_crypto body_team2_pw 5 db_team1_B "team2" "pw"
              eq_refl eq_refl) as [Hunknown _].
  destruct (@drawers_login_failures toy_crypto body_team1_bad 5 db_team1_B "team1" "bad"
              eq_refl eq_refl) as [_ Hwrong].
  destruct (Hwrong (mkDrawer 0 "team1" "$2b$10$pw") eq_refl eq_refl) as [HB HA].
  split; [exact (proj1 (Hunknown eq_refl))|]. split; [exact HB | exact HA].
Defined.

(** ** Invariants of the whole store *)

Section WholeStore.
Context `{Crypto}.

Lemma A_auth_cases (P : Outcome * DB -> Prop) a now next db :
  (forall msg, P (res_status_json 401 (JError msg), db)) ->
  (forall p, P (next p db)) -> P (A.auth a now next db).
Proof.
  intros Hrej Hnext. unfold A.auth.
  destruct (truthy _) as [t|]; [|apply Hrej].
  destruct (jwt_verify t now); [apply Hnext | apply Hrej].
Qed.

Lemma B_auth_cases (P : Outcome * DB -> Prop) a now next db :
  (forall msg, P (res_status_json 401 (JError msg), db)) ->
  (forall p, P (next p db)) -> P (B.authMiddleware a now next db).
Proof.
  intros Hrej Hnext. unfold B.authMiddleware.
  destruct (truthy a) as [h|]; [|apply Hrej].
  destruct (nth_error (split_space h) 1) as [t|]; [|apply Hrej].
  destruct (jwt_verify t now); [apply Hnext | apply Hrej].
Qed.

Ltac account_step He Hp :=
  match goal with
  | |- context [truthy ?x] =>
      destruct (truthy x) as [?e|] eqn:He; [|simpl; constructor]
  end;
  match goal with
  | |- context [truthy ?x] =>
      destruct (truthy x) as [?pw|] eqn:Hp; [|simpl; constructor]
  end.

Lemma A_handle_db_step o now r db : db_step db (snd (A.handle o now r db)).
Proof.
  destruct r; simpl.
  - unfold A.register. account_step He Hp.
    destruct (User_findOne (Some e) db) eqn:Hf; [simpl; constructor|].
    apply db_user; [now destruct (truthy_Some _ _ He) | exact Hf].
  - unfold A.drawers_create. account_step He Hp.
    destruct (Drawer_findOne (Some e) db) eqn:Hf; [simpl; constructor|].
    apply db_drawer; [now destruct (truthy_Some _ _ He) | exact Hf].
  - unfold A.login. destruct (User_findOne _ db); [|simpl; constructor].
    destruct (bcrypt_compare _ _) as [|[|]]; simpl; constructor.
  - unfold A.drawers_login. destruct (Drawer_findOne _ db); [|simpl; constructor].
    destruct (bcrypt_compare _ _) as [|[|]]; simpl; constructor.
  - apply A_auth_cases; intros; simpl; constructor.
  - apply A_auth_cases; intros; simpl; [constructor|]. apply db_note.
  - apply A_auth_cases; intros; simpl; [constructor|].
    destruct id as [i|raw]; simpl; [|constructor].
    apply db_update. intros m _. split; reflexivity.
  - apply A_auth_cases; intros; simpl; [constructor|].
    destruct id as [i|raw]; simpl; [|constructor]. apply db_delete.
Qed.

Lemma B_handle_db_step now r db : db_step db (snd (B.handle now r db)).
Proof.
  destruct r; simpl.
  - unfold B.register. account_step He Hp.
    destruct (User_findOne (Some e) db) eqn:Hf; [simpl; constructor|].
    apply db_user; [now destruct (truthy_Some _ _ He) | exact Hf].
  - unfold B.drawers. account_step He Hp.
    destruct (Drawer_findOne (Some e) db) eqn:Hf; [simpl; constructor|].
    apply db_drawer; [now destruct (truthy_Some _ _ He) | exact Hf].
  - unfold B.login. account_step He Hp.
    destruct (User_findOne _ db); [|simpl; constructor].
    destruct (bcrypt_compare _ _) as [|[|]]; simpl; constructor.
  - unfold B.drawers_login. account_step He Hp.
    destruct (Drawer_findOne _ db); [|simpl; constructor].
    destruct (bcrypt_compare _ _) as [|[|]]; simpl; constructor.
  - apply B_auth_cases; intros; simpl; constructor.
  - apply B_auth_cases; intros; simpl; [constructor|]. apply db_note.
  - apply B_auth_cases; intros; simpl; [constructor|].
    destruct id as [id|raw]; simpl; [|constructor]. unfold B.put_notes.
    destruct (Note_findById id db) as [n|] eqn:Hf; [|simpl; constructor].
    destruct (B.not_owner n p); simpl; [constructor|].
    destruct (findById_In _ _ _ Hf) as [_ Hid]. subst id.
    apply db_update. intros m Hm. unfold Note_findById in Hf. simpl in Hm.
    rewrite Hf in Hm. injection Hm as <-. split; reflexivity.
  - apply B_auth_cases; intros; simpl; [constructor|].
    destruct id as [id|raw]; simpl; [|constructor]. unfold B.delete_notes.
    destruct (Note_findById id db) as [n|]; [|simpl; constructor].
    destruct (B.not_owner n p); simpl; [constructor|]. apply db_delete.
Qed.

Lemma handle_db_step v now r db : db_step db (snd (handle v now r db)).
Proof. destruct v; [apply A_handle_db_step | apply B_handle_db_step]. Qed.
End WholeStore.

Lemma remove_first_perm f ns :
  remove_first f ns = ns \/ exists n, Permutation ns (n :: remove_first f ns).
Proof.
  induction ns as [|a r IH]; simpl; [now left|].
  destruct (f a).
  - right. exists a. reflexivity.
  - destruct IH as [->|[n Hp]]; [now left|].
    right. exists n. rewrite perm_swap. now constructor.
Qed.

Lemma ids_of_fresh_id db l :
  ids_fresh db -> Permutation l (next_oid db :: ids_of db) ->
  NoDup l /\ Forall (fun i => (i < N.succ (next_oid db))%N) l.
Proof.
  intros [Hnd Hlt] Hp. split.
  - apply (Permutation_NoDup (Permutation_sym Hp)). constructor; [|exact Hnd].
    intros Hin. rewrite Forall_forall in Hlt. specialize (Hlt _ Hin). lia.
  - apply (Permutation_Forall (Permutation_sym Hp)). constructor; [lia|].
    eapply Forall_impl; [|exact Hlt]. simpl. intros a Ha. lia.
Qed.

Lemma db_step_ids_fresh db db' : db_step db db' -> ids_fresh db -> ids_fresh db'.
Proof.
  intros Hs Hfresh.
  destruct Hs as [ | e un h _ _ | name h _ _ | ot oid t c now | f g Hg | f ].
  - exact Hfresh.
  - apply (ids_of_fresh_id db); [exact Hfresh|].
    unfold ids_of. simpl. rewrite map_app. simpl. rewrite <- app_assoc. simpl.
    symmetry. apply Permutation_middle.
  - apply (ids_of_fresh_id db); [exact Hfresh|].
    unfold ids_of. simpl. rewrite map_app. simpl. rewrite <- app_assoc. simpl.
    rewrite app_assoc. symmetry. rewrite app_assoc. apply Permutation_middle.
  - apply (ids_of_fresh_id db); [exact Hfresh|].
    unfold ids_of. simpl. rewrite map_app. simpl. rewrite !app_assoc.
    symmetry. apply Permutation_cons_append.
  - unfold ids_fresh, ids_of in *. simpl.
    rewrite update_first_ids; [exact Hfresh|]. intros m Hm. now destruct (Hg m Hm).
  - destruct Hfresh as [Hnd Hlt]. unfold ids_fresh, ids_of in *. simpl.
    destruct (remove_first_perm f (Notes db)) as [->|[n Hp]]; [now split|].
    assert (Hperm : Permutation
                      (map user_id (Users db) ++ map drawer_id (Drawers db)
                         ++ map note_id (Notes db))
                      (note_id n :: map user_id (Users db) ++ map drawer_id (Drawers db)
                         ++ map note_id (remove_first f (Notes db)))).
    { rewrite (Permutation_map note_id Hp). simpl.
      rewrite !app_assoc. symmetry. apply Permutation_middle. }
    split.
    + pose proof (Permutation_NoDup Hperm Hnd) as Hnd'. now inversion Hnd'.
    + pose proof (Permutation_Forall Hperm Hlt) as Hlt'. now inversion Hlt'.
Qed.

Lemma NoDup_snoc {X} (l : list X) x : NoDup l -> ~ In x l -> NoDup (l ++ [x]).
Proof.
  intros Hnd Hnin. apply (Permutation_NoDup (Permutation_cons_append l x)).
  now constructor.
Qed.

Lemma db_step_credentials_unique db db' :
  db_step db db' -> credentials_unique db -> credentials_unique db'.
Proof.
  intros Hs (Hu & Hd & Hue & Hde).
  destruct Hs as [ | e un h Hne Hf | name h Hne Hf | ot oid t c now | f g Hg | f ];
    unfold credentials_unique; simpl; try (repeat split; assumption).
  - repeat split; try assumption.
    + rewrite map_app. simpl. apply NoDup_snoc; [exact Hu|].
      intros Hin. apply in_map_iff in Hin as [u [Hemail Hin]].
      pose proof (find_none_all _ _ Hf u Hin) as Hno. simpl in Hno.
      rewrite Hemail, String.eqb_refl in Hno. discriminate.
    + apply Forall_app. split; [exact Hue|]. constructor; [exact Hne | constructor].
  - repeat split; try assumption.
    + rewrite map_app. simpl. apply NoDup_snoc; [exact Hd|].
      intros Hin. apply in_map_iff in Hin as [d [Hname Hin]].
      pose proof (find_none_all _ _ Hf d Hin) as Hno. simpl in Hno.
      rewrite Hname, String.eqb_refl in Hno. discriminate.
    + apply Forall_app. split; [exact Hde|]. constructor; [exact Hne | constructor].
Qed.

Lemma db_step_accounts_kept db db' :
  db_step db db' ->
  (exists us, Users db' = (Users db ++ us)%list)
  /\ (exists ds, Drawers db' = (Drawers db ++ ds)%list)
  /\ (next_oid db <= next_oid db')%N.
Proof.
  intros Hs.
  destruct Hs as [ | e un h _ _ | name h _ _ | ot oid t c now | f g Hg | f ]; simpl;
    repeat split; try lia;
    try (exists []; now rewrite app_nil_r); eexists; reflexivity.
Qed.

Section WholeStoreRuns.
Context `{Crypto}.

(** X10.  No run of either version stores two users with one email or
    two drawers with one name, or an empty email or name: the property
    is kept by every request sequence, and holds from the empty store. *)
Theorem emails_and_names_stay_unique (v : Version) (rs : list (Z * Request)) (db : DB) :
  (credentials_unique db -> credentials_unique (run v rs db))
  /\ credentials_unique (run v rs empty_db).
Proof.
  assert (Hkeep : forall rs db, credentials_unique db -> credentials_unique (run v rs db)).
  { clear rs db. induction rs as [|[now r] rest IH]; simpl; intros db Hc; [exact Hc|].
    apply IH. eapply db_step_credentials_unique; [apply handle_db_step | exact Hc]. }
  split; [apply Hkeep|]. apply Hkeep. repeat split; simpl; constructor.
Qed.

(** X11.  Over any request sequence of either version the [_id]s of
    users, drawers and notes stay pairwise distinct and below the id
    counter, and the counter never decreases; so it is from the empty
    store.  In particular no user shares its [_id] with a drawer. *)
Theorem ids_stay_fresh (v : Version) (rs : list (Z * Request)) (db : DB) :
  (ids_fresh db -> ids_fresh (run v rs db))
  /\ ids_fresh (run v rs empty_db)
  /\ (forall u d, In u (Users (run v rs empty_db)) -> In d (Drawers (run v rs empty_db)) ->
                  user_id u <> drawer_id d).
Proof.
  assert (Hkeep : forall rs db, ids_fresh db -> ids_fresh (run v rs db)).
  { clear rs db. induction rs as [|[now r] rest IH]; simpl; intros db Hc; [exact Hc|].
    apply IH. eapply db_step_ids_fresh; [apply handle_db_step | exact Hc]. }
  assert (He : ids_fresh (run v rs empty_db)).
  { apply Hkeep. split; simpl; constructor. }
  split; [apply Hkeep|]. split; [exact He|].
  intros u d Hu Hd Heq. destruct He as [Hnd _]. unfold ids_of in Hnd.
  rewrite app_assoc in Hnd. apply NoDup_app_remove_r in Hnd.
  revert Hnd. generalize (in_map user_id _ _ Hu), (in_map drawer_id _ _ Hd).
  rewrite Heq. generalize (drawer_id d) as k.
  generalize (map user_id (Users (run v rs empty_db))) as us.
  generalize (map drawer_id (Drawers (run v rs empty_db))) as ds.
  intros ds us k Hku Hkd Hnd.
  induction us as [|a us' IH]; simpl in *; [contradiction|].
  inversion Hnd as [|x l Hnotin Hrest]; subst.
  destruct Hku as [->|Hku]; [|now apply IH].
  apply Hnotin. apply in_or_app. now right.
Qed.

(** X12.  Stored accounts are never changed or removed: after any
    request sequence of either version the users and the drawers of the
    store are the former ones, in order, followed by the new ones.  The
    logins and the list change nothing at all, whatever they answer. *)
Theorem accounts_append_only (v : Version) (rs : list (Z * Request)) (db : DB) :
  (exists us ds, Users (run v rs db) = (Users db ++ us)%list
                 /\ Drawers (run v rs db) = (Drawers db ++ ds)%list)
  /\ (forall now body a,
        snd (handle v now (POST_login body) db) = db
        /\ snd (handle v now (POST_drawers_login body) db) = db
        /\ snd (handle v now (GET_notes a) db) = db).
Proof.
  split.
  - revert db. induction rs as [|[now r] rest IH]; simpl; intros db.
    + exists [], []. now rewrite !app_nil_r.
    + destruct (IH (snd (handle v now r db))) as [us [ds [Hu Hd]]].
      destruct (db_step_accounts_kept _ _ (handle_db_step v now r db))
        as [[us0 Hu0] [[ds0 Hd0] _]].
      exists (us0 ++ us)%list, (ds0 ++ ds)%list.
      rewrite Hu, Hd, Hu0, Hd0, !app_assoc. auto.
  - intros now body a. destruct v; simpl; repeat split.
    + unfold A.login. destruct (User_findOne _ db); [|reflexivity].
      destruct (bcrypt_compare _ _) as [|[|]]; reflexivity.
    + unfold A.drawers_login. destruct (Drawer_findOne _ db); [|reflexivity].
      destruct (bcrypt_compare _ _) as [|[|]]; reflexivity.
    + apply (A_auth_cases (fun x => snd x = db)); reflexivity.
    + unfold B.login. destruct (truthy _); [|reflexivity].
      destruct (truthy _); [|reflexivity].
      destruct (User_findOne _ db); [|reflexivity].
      destruct (bcrypt_compare _ _) as [|[|]]; reflexivity.
    + unfold B.drawers_login. destruct (truthy _); [|reflexivity].
      destruct (truthy _); [|reflexivity].
      destruct (Drawer_findOne _ db); [|reflexivity].
      destruct (bcrypt_compare _ _) as [|[|]]; reflexivity.
    + apply (B_auth_cases (fun x => snd x = db)); reflexivity.
Qed.
End WholeStoreRuns.

Lemma emails_and_names_stay_unique_witness :
  credentials_unique
    (@run toy_crypto VersionB [(5%Z, POST_register body_b_pw1); (6%Z, POST_register body_a_wrong)]
       db_registered_B).
Proof.
  apply (proj1 (@emails_and_names_stay_unique toy_crypto VersionB
                  [(5%Z, POST_register body_b_pw1); (6%Z, POST_register body_a_wrong)]
                  db_registered_B)).
  repeat split; simpl; repeat constructor; simpl; try tauto; discriminate.
Defined.

Lemma ids_stay_fresh_witness :
  ids_fresh
    (@run toy_crypto (VersionA true)
       [(5%Z, POST_drawers body_team1_pw); (6%Z, POST_notes (bearer user1) body_xy)]
       db_registered_A).
Proof.
  apply (proj1 (@ids_stay_fresh toy_crypto (VersionA true)
                  [(5%Z, POST_drawers body_team1_pw); (6%Z, POST_notes (bearer user1) body_xy)]
                  db_registered_A)).
  split; simpl; repeat constructor; simpl; tauto.
Defined.

(** ** Notes: what an operation leaves alone *)

Lemma find_other_update_first f g ns i j :
  (forall m, find f ns = Some m -> note_id m = i /\ note_id (g m) = i) -> j <> i ->
  find (fun m => N.eqb (note_id m) j) (update_first f g ns)
  = find (fun m => N.eqb (note_id m) j) ns.
Proof.
  intros Hf Hne. induction ns as [|a r IH]; simpl in *; [reflexivity|].
  destruct (f a) eqn:Fa; simpl.
  - destruct (Hf a eq_refl) as [Ha Hg]. rewrite Ha, Hg.
    apply N.eqb_neq in Hne. rewrite N.eqb_sym in Hne. now rewrite Hne.
  - rewrite IH; [reflexivity|]. exact Hf.
Qed.

Lemma find_other_remove_first f ns i j :
  (forall m, find f ns = Some m -> note_id m = i) -> j <> i ->
  find (fun m => N.eqb (note_id m) j) (remove_first f ns)
  = find (fun m => N.eqb (note_id m) j) ns.
Proof.
  intros Hf Hne. induction ns as [|a r IH]; simpl in *; [reflexivity|].
  destruct (f a) eqn:Fa; simpl.
  - rewrite (Hf a eq_refl). apply N.eqb_neq in Hne. rewrite N.eqb_sym in Hne.
    now rewrite Hne.
  - rewrite IH; [reflexivity|]. exact Hf.
Qed.

Lemma filter_update_first (h f : Note -> bool) g ns :
  (forall m, find f ns = Some m -> h m = false /\ h (g m) = false) ->
  filter h (update_first f g ns) = filter h ns.
Proof.
  intros Hf. induction ns as [|a r IH]; simpl in *; [reflexivity|].
  destruct (f a) eqn:Fa; simpl.
  - destruct (Hf a eq_refl) as [-> ->]. reflexivity.
  - rewrite IH; [reflexivity|]. exact Hf.
Qed.

Lemma filter_remove_first (h f : Note -> bool) ns :
  (forall m, find f ns = Some m -> h m = false) ->
  filter h (remove_first f ns) = filter h ns.
Proof.
  intros Hf. induction ns as [|a r IH]; simpl in *; [reflexivity|].
  destruct (f a) eqn:Fa; simpl.
  - now rewrite (Hf a eq_refl).
  - rewrite IH; [reflexivity|]. exact Hf.
Qed.

Lemma find_id_and_owner i k ns m :
  find (fun x => N.eqb (note_id x) i && N.eqb (ownerId x) k) ns = Some m ->
  note_id m = i /\ ownerId m = k.
Proof.
  intros Hf. apply find_some in Hf as [_ Hm]. apply andb_true_iff in Hm as [Hi Hk].
  now rewrite N.eqb_eq in Hi, Hk.
Qed.

Lemma owned_by_false p n : owner n <> principal_pair p -> owned_by p n = false.
Proof.
  intros Hne. destruct (owned_by p n) eqn:E; [|reflexivity].
  apply owned_by_spec in E. contradiction.
Qed.

(** X13.  An update or a delete, whatever it answers, leaves every note
    with another [_id] as it was: looking such a note up gives the same
    result before and after.  Both versions. *)
Theorem other_notes_untouched (o : bool) (p : Principal) (i j : ObjectId) (body : Body)
    (now : Z) (db : DB) :
  j <> i ->
  Note_findById j (snd (A.put_notes o p i body db)) = Note_findById j db
  /\ Note_findById j (snd (A.delete_notes p i db)) = Note_findById j db
  /\ Note_findById j (snd (B.put_notes p i body now db)) = Note_findById j db
  /\ Note_findById j (snd (B.delete_notes p i db)) = Note_findById j db.
Proof.
  intros Hne. unfold Note_findById. repeat split.
  - simpl. apply find_other_update_first with (i := i); [|exact Hne].
    intros m Hm. simpl. split; now apply find_id_and_owner in Hm.
  - simpl. apply find_other_remove_first with (i := i); [|exact Hne].
    intros m Hm. now apply find_id_and_owner in Hm.
  - unfold B.put_notes. destruct (Note_findById i db) as [n|] eqn:Hf; [|reflexivity].
    destruct (B.not_owner n p); [reflexivity|]. simpl.
    destruct (findById_In _ _ _ Hf) as [_ Hid].
    apply find_other_update_first with (i := i); [|exact Hne].
    intros m Hm. apply find_some in Hm as [_ Hm]. apply N.eqb_eq in Hm. simpl.
    split; congruence.
  - unfold B.delete_notes. destruct (Note_findById i db) as [n|] eqn:Hf; [|reflexivity].
    destruct (B.not_owner n p); [reflexivity|]. simpl.
    apply find_other_remove_first with (i := i); [|exact Hne].
    intros m Hm. apply find_some in Hm as [_ Hm]. now apply N.eqb_eq in Hm.
Qed.

Lemma other_notes_untouched_witness :
  Note_findById 5 (snd (B.delete_notes user1 0 db_two_owners)) = Some note5_of_user2
  /\ Note_findById 5 (snd (A.put_notes false user1 0 empty_body db_two_owners))
     = Some note5_of_user2.
Proof.
  assert (Hne : 5%N <> 0%N) by discriminate.
  destruct (other_notes_untouched false user1 0 5 empty_body 9 db_two_owners Hne)
    as [HA [_ [_ HB]]].
  split; [rewrite HB | rewrite HA]; reflexivity.
Defined.

(** X14.  What one caller does to notes never changes what another
    caller lists.  In the second version a create, update or delete by
    [q] leaves the list of every [p] with another (type, id) pair as it
    was; in the first version the same holds for the create, and for
    update and delete when [p] has another id than [q]. *)
Theorem list_unaffected_by_others (o : bool) (p q : Principal) (i : ObjectId) (body : Body)
    (now : Z) (db : DB) :
  principal_pair p <> principal_pair q ->
  let list_of := Note_find (p_type p) (p_id p) in
  list_of (snd (B.post_notes q body now db)) = list_of db
  /\ list_of (snd (B.put_notes q i body now db)) = list_of db
  /\ list_of (snd (B.delete_notes q i db)) = list_of db
  /\ list_of (snd (A.post_notes q body now db)) = list_of db
  /\ (p_id p <> p_id q ->
        list_of (snd (A.put_notes o q i body db)) = list_of db
        /\ list_of (snd (A.delete_notes q i db)) = list_of db).
Proof.
  intros Hpq list_of. unfold list_of, Note_find.
  assert (Hnew :
            PrincipalType_eqb (p_type q) (p_type p) && N.eqb (p_id q) (p_id p) = false).
  { destruct (PrincipalType_eqb (p_type q) (p_type p)) eqn:Et; [|reflexivity].
    destruct (N.eqb (p_id q) (p_id p)) eqn:Ei; [|reflexivity].
    apply PrincipalType_eqb_eq in Et. apply N.eqb_eq in Ei.
    exfalso. apply Hpq. unfold principal_pair. now rewrite Et, Ei. }
  split; [|split; [|split; [|split]]].
  - simpl. rewrite filter_app. simpl. rewrite Hnew. apply app_nil_r.
  - unfold B.put_notes. destruct (Note_findById i db) as [n|] eqn:Hf; [|reflexivity].
    destruct (B.not_owner n q) eqn:Hown; [reflexivity|]. simpl.
    apply not_owner_spec in Hown.
    assert (Hn : owned_by p n = false) by (apply owned_by_false; congruence).
    apply filter_update_first. intros m Hm.
    destruct (findById_In _ _ _ Hf) as [_ Hid]. simpl in Hm. rewrite Hid in Hm.
    unfold Note_findById in Hf. rewrite Hf in Hm. injection Hm as <-.
    split; exact Hn.
  - unfold B.delete_notes. destruct (Note_findById i db) as [n|] eqn:Hf; [|reflexivity].
    destruct (B.not_owner n q) eqn:Hown; [reflexivity|]. simpl.
    apply not_owner_spec in Hown.
    assert (Hn : owned_by p n = false) by (apply owned_by_false; congruence).
    apply filter_remove_first. intros m Hm.
    unfold Note_findById in Hf. rewrite Hf in Hm. now injection Hm as <-.
  - simpl. rewrite filter_app. simpl. rewrite Hnew. apply app_nil_r.
  - intros Hid.
    assert (Hk : forall m, ownerId m = p_id q ->
              PrincipalType_eqb (ownerType m) (p_type p) && N.eqb (ownerId m) (p_id p) = false).
    { intros m ->. apply andb_false_iff. right. apply N.eqb_neq. congruence. }
    split; simpl.
    + apply filter_update_first. intros m Hm. apply find_id_and_owner in Hm as [_ Hm].
      split; apply Hk; exact Hm.
    + apply filter_remove_first. intros m Hm. apply find_id_and_owner in Hm as [_ Hm].
      now apply Hk.
Qed.

Lemma list_unaffected_by_others_witness :
  Note_find user 2 (snd (B.delete_notes user1 0 db_two_owners)) = [note5_of_user2]
  /\ Note_find user 2 (snd (A.put_notes true user1 0 body_xy db_two_owners))
     = [note5_of_user2].
Proof.
  assert (Hpair : principal_pair user2 <> principal_pair user1) by discriminate.
  assert (Hid : p_id user2 <> p_id user1) by discriminate.
  destruct (list_unaffected_by_others true user2 user1 0 body_xy 9 db_two_owners Hpair)
    as [_ [_ [HB [_ HA]]]].
  split; [exact HB | exact (proj1 (HA Hid))].
Defined.

(** ** Notes: delete, create, and the update of the first version *)

Lemma remove_first_narrow (f : Note -> bool) i ns n :
  find (fun m => N.eqb (note_id m) i) ns = Some n -> f n = true ->
  (forall m, f m = true -> N.eqb (note_id m) i = true) ->
  remove_first f ns = remove_first (fun m => N.eqb (note_id m) i) ns.
Proof.
  intros Hf Hn Himp. induction ns as [|a r IH]; simpl in *; [reflexivity|].
  destruct (N.eqb (note_id a) i) eqn:E.
  - injection Hf as ->. now rewrite Hn.
  - destruct (f a) eqn:Fa; [rewrite (Himp a Fa) in E; discriminate|].
    f_equal. now apply IH.
Qed.

Lemma remove_first_found (f : Note -> bool) ns n :
  find f ns = Some n -> Permutation ns (n :: remove_first f ns).
Proof.
  induction ns as [|a r IH]; simpl; [discriminate|].
  destruct (f a).
  - intros [= ->]. reflexivity.
  - intros Hf. rewrite perm_swap. constructor. now apply IH.
Qed.

Lemma remove_first_gone i ns n :
  NoDup (map note_id ns) -> find (fun m => N.eqb (note_id m) i) ns = Some n ->
  find (fun m => N.eqb (note_id m) i) (remove_first (fun m => N.eqb (note_id m) i) ns) = None.
Proof.
  induction ns as [|a r IH]; simpl; [discriminate|].
  intros Hnd Hf. inversion Hnd as [|x l Hnotin Hr]; subst.
  destruct (N.eqb (note_id a) i) eqn:E.
  - apply N.eqb_eq in E.
    destruct (find (fun m => N.eqb (note_id m) i) r) as [m|] eqn:Hm; [|reflexivity].
    apply find_some in Hm as [Hin Hid]. apply N.eqb_eq in Hid.
    exfalso. apply Hnotin. rewrite E, <- Hid. now apply in_map.
  - simpl. rewrite E. now apply IH.
Qed.

(** X15.  Deleting a stored note [n] by its id: the second version, for
    a caller with the note's owner pair, and the first version, for a
    caller with the note's [ownerId] (its type is not looked at), answer
    200 [{ success: true }] and remove exactly [n]; every other note
    stays.  With distinct ids the note is then not found, and a second
    delete is answered 404 by the second version and success by the
    first. *)
Theorem delete_removes_the_note (p : Principal) (i : ObjectId) (db : DB) (n : Note) :
  Note_findById i db = Some n ->
  let db' := Note_deleteOne (fun m => N.eqb (note_id m) i) db in
  (owner n = principal_pair p -> B.delete_notes p i db = (res_json JSuccess, db'))
  /\ (ownerId n = p_id p -> A.delete_notes p i db = (res_json JSuccess, db'))
  /\ Permutation (Notes db) (n :: Notes db')
  /\ (NoDup (map note_id (Notes db)) ->
        Note_findById i db' = None
        /\ B.delete_notes p i db' = (res_status_json 404 (JError "not found"), db')
        /\ A.delete_notes p i db' = (res_json JSuccess, db')).
Proof.
  intros Hf db'. split; [|split; [|split]].
  - intros Hown. unfold B.delete_notes. rewrite Hf.
    now rewrite (proj2 (not_owner_spec n p) Hown).
  - intros Hown. unfold A.delete_notes, Note_deleteOne, db'.
    rewrite (remove_first_narrow _ i (Notes db) n Hf); [reflexivity| |].
    + destruct (findById_In _ _ _ Hf) as [_ ->]. rewrite N.eqb_refl, Hown. simpl.
      apply N.eqb_refl.
    + intros m Hm. now apply andb_true_iff in Hm.
  - simpl. now apply remove_first_found.
  - intros Hnd.
    assert (Hgone : Note_findById i db' = None).
    { unfold Note_findById, db'. simpl. now apply (remove_first_gone i (Notes db) n). }
    split; [exact Hgone|]. split.
    + unfold B.delete_notes. now rewrite Hgone.
    + apply A_delete_no_match. now apply A_filter_missing.
Qed.

Lemma delete_removes_the_note_witness :
  B.delete_notes user2 5 db_two_owners
    = (res_json JSuccess, mkDB [] [] [note0_of_user1] 6)
  /\ A.delete_notes user2 5 db_two_owners
     = (res_json JSuccess, mkDB [] [] [note0_of_user1] 6)
  /\ B.delete_notes user2 5 (mkDB [] [] [note0_of_user1] 6)
     = (res_status_json 404 (JError "not found"), mkDB [] [] [note0_of_user1] 6).
Proof.
  destruct (delete_removes_the_note user2 5 db_two_owners note5_of_user2 eq_refl)
    as [HB [HA [_ Htwice]]].
  split; [exact (HB eq_refl)|]. split; [exact (HA eq_refl)|].
  apply Htwice. simpl. repeat constructor; simpl; [intros [H|[]]; discriminate | tauto].
Defined.

Lemma find_app_other {X} (f : X -> bool) l x :
  f x = false -> find f (l ++ [x]) = find f l.
Proof.
  intros Hx. induction l as [|a r IH]; simpl; [now rewrite Hx|].
  destruct (f a); [reflexivity | exact IH].
Qed.

(** X16.  For a body whose title and content are strings or omitted,
    a create in either version answers 200 with the new note, which
    carries the caller's owner pair, the supplied title and content (the
    empty string for an omitted one), the clock as [createdAt] and no
    [updatedAt], and is appended to the collection.
    When the stored ids are below the counter and distinct, the note is
    found by its id afterwards and every other lookup is as before. *)
Theorem create_appends_note (p : Principal) (body : Body) (now : Z) (db : DB) :
  let n := mkNote (next_oid db) (p_type p) (p_id p)
             (Some (or_empty (body_title body))) (Some (or_empty (body_content body)))
             now None in
  let db' := mkDB (Users db) (Drawers db) (Notes db ++ [n]) (N.succ (next_oid db)) in
  A.post_notes p body now db = (res_json (JNote (Some n)), db')
  /\ B.post_notes p body now db = (res_json (JNote (Some n)), db')
  /\ (body_title body = None -> title n = Some "")
  /\ (body_content body = None -> content n = Some "")
  /\ (wf db ->
        Note_findById (next_oid db) db = None
        /\ Note_findById (next_oid db) db' = Some n
        /\ forall j, j <> next_oid db -> Note_findById j db' = Note_findById j db).
Proof.
  cbv zeta. split; [reflexivity|]. split; [reflexivity|].
  split; [simpl; now intros ->|]. split; [simpl; now intros ->|].
  intros [Hlt _].
  assert (Hnone : Note_findById (next_oid db) db = None).
  { unfold Note_findById. destruct (find _ (Notes db)) as [m|] eqn:Hm; [|reflexivity].
    apply find_some in Hm as [Hin Hid]. apply N.eqb_eq in Hid.
    rewrite Forall_forall in Hlt. specialize (Hlt m Hin). lia. }
  split; [exact Hnone|]. split.
  - unfold Note_findById. simpl. apply find_app_new; [exact Hnone|]. simpl. apply N.eqb_refl.
  - intros j Hj. unfold Note_findById. simpl. apply find_app_other. simpl.
    apply N.eqb_neq. congruence.
Qed.

Lemma create_appends_note_witness :
  Note_findById 3 (snd (B.post_notes user2 empty_body 9 db_one_note))
    = Some (mkNote 3 user 2 (Some "") (Some "") 9 None)
  /\ Note_findById 0 (snd (B.post_notes user2 empty_body 9 db_one_note))
     = Some note0_of_user1.
Proof.
  assert (Hne : 0%N <> next_oid db_one_note) by discriminate.
  destruct (create_appends_note user2 empty_body 9 db_one_note)
    as [_ [_ [_ [_ Hwf]]]].
  destruct (Hwf wf_db_one_note) as [_ [Hnew Hold]].
  split; [exact Hnew | exact (Hold 0%N Hne)].
Defined.

Lemma update_first_same f g ns :
  (forall m, find f ns = Some m -> g m = m) -> update_first f g ns = ns.
Proof.
  induction ns as [|a r IH]; simpl; intros Hg; [reflexivity|].
  destruct (f a); [now rewrite Hg | f_equal; auto].
Qed.

(** X17.  The update of the first version looks at the caller's id
    only: for a stored note whose [ownerId] is the caller's id, whatever
    its [ownerType], it answers 200 with the note, in which a supplied
    title or content replaces the stored one and an omitted one is kept
    ([omitUndefined]) or becomes [null] (otherwise); owner pair,
    [createdAt] and [updatedAt] are as they were.  With [omitUndefined]
    an empty body changes nothing in the store. *)
Theorem update_by_owner_id_A (o : bool) (p : Principal) (i : ObjectId) (body : Body)
    (db : DB) (n : Note) :
  Note_findById i db = Some n -> ownerId n = p_id p ->
  exists n' db',
    A.put_notes o p i body db = (res_json (JNote (Some n')), db')
    /\ Note_findById i db' = Some n'
    /\ (forall t, body_title body = Some t -> title n' = Some t)
    /\ (forall c, body_content body = Some c -> content n' = Some c)
    /\ (body_title body = None -> title n' = if o then title n else None)
    /\ (body_content body = None -> content n' = if o then content n else None)
    /\ owner n' = owner n /\ createdAt n' = createdAt n /\ updatedAt n' = updatedAt n
    /\ (o = true -> body_title body = None -> body_content body = None ->
        n' = n /\ db' = db).
Proof.
  intros Hf Hown. destruct (findById_In _ _ _ Hf) as [Hin Hid].
  unfold A.put_notes, Note_findOneAndUpdate.
  assert (Hfn : N.eqb (note_id n) i && N.eqb (ownerId n) (p_id p) = true).
  { rewrite Hid, Hown, !N.eqb_refl. reflexivity. }
  match goal with
  | |- context [update_first ?f ?g _] =>
      destruct (findById_update_first f g (Notes db) i n Hf Hfn) as [Hfind Hupd]
  end.
  - intros m Hm. now apply andb_true_iff in Hm.
  - simpl. assumption.
  - rewrite Hfind. simpl. eexists. eexists. split; [reflexivity|].
    split; [exact Hupd|]. simpl.
    split; [now intros t ->|]. split; [now intros c ->|].
    split; [now intros ->|]. split; [now intros ->|].
    split; [reflexivity|]. split; [reflexivity|]. split; [reflexivity|].
    intros -> Ht Hc. rewrite Ht, Hc. simpl.
    split; [now destruct n|].
    rewrite update_first_same; [apply set_Notes_same|].
    intros m _. now destruct m.
Qed.

Lemma update_by_owner_id_A_witness :
  exists n',
    fst (A.put_notes false drawer1 0 body_xy db_one_note) = res_json (JNote (Some n'))
    /\ title n' = Some "x" /\ owner n' = (user, 1%N).
Proof.
  destruct (update_by_owner_id_A false drawer1 0 body_xy db_one_note note0_of_user1
              eq_refl eq_refl)
    as [n' [db' [Hput [_ [Ht [_ [_ [_ [Ho _]]]]]]]]].
  exists n'. rewrite Hput. split; [reflexivity|]. split; [now apply Ht | exact Ho].
Defined.

(** ** Through the routes *)

Section Routes.
Context `{Crypto}.

Lemma bearer_accepted t p now next db :
  no_space t = true -> t <> "" -> jwt_verify t now = Some p ->
  A.auth (Some ("Bearer " ++ t)) now next db = next p db
  /\ B.authMiddleware (Some ("Bearer " ++ t)) now next db = next p db.
Proof.
  intros Ht Hne Hv. unfold A.auth, B.authMiddleware.
  change ("Bearer " ++ t) with ("Bearer" ++ " " ++ t).
  rewrite append_space_truthy, (header_token "Bearer" t eq_refl Ht), (truthy_nonempty t Hne), Hv.
  auto.
Qed.

(** X18.  Through the routing table and the middleware, with bearer
    tokens that [jwt.verify] accepts: after a caller's POST /api/notes
    the caller's GET /api/notes answers 200 with a list that holds the
    new note, and the GET of a caller with another (type, id) pair
    answers exactly what it answered before.  Both versions. *)
Theorem post_then_get_by_routes (v : Version) (tc to : string) (pc po : Principal)
    (body : Body) (now1 now2 : Z) (db : DB) :
  no_space tc = true -> tc <> "" -> jwt_verify tc now1 = Some pc ->
  jwt_verify tc now2 = Some pc ->
  no_space to = true -> to <> "" -> jwt_verify to now2 = Some po ->
  principal_pair po <> principal_pair pc ->
  let db1 := snd (handle v now1 (POST_notes (Some ("Bearer " ++ tc)) body) db) in
  (exists l n, handle v now2 (GET_notes (Some ("Bearer " ++ tc))) db1
               = (res_json (JNotes l), db1)
               /\ In n l /\ owner n = principal_pair pc
               /\ title n = Some (or_empty (body_title body))
               /\ content n = Some (or_empty (body_content body))
               /\ createdAt n = now1)
  /\ fst (handle v now2 (GET_notes (Some ("Bearer " ++ to))) db1)
     = fst (handle v now2 (GET_notes (Some ("Bearer " ++ to))) db).
Proof.
  intros Htc Hnec Hvc1 Hvc2 Hto Hneo Hvo Hpair db1.
  set (n := mkNote (next_oid db) (p_type pc) (p_id pc)
              (Some (or_empty (body_title body))) (Some (or_empty (body_content body)))
              now1 None).
  assert (Hdb1 : db1 = mkDB (Users db) (Drawers db) (Notes db ++ [n]) (N.succ (next_oid db))).
  { unfold db1. destruct v; simpl.
    - now rewrite (proj1 (bearer_accepted tc pc now1 _ db Htc Hnec Hvc1)).
    - now rewrite (proj2 (bearer_accepted tc pc now1 _ db Htc Hnec Hvc1)). }
  assert (Hin : In n (Note_find (p_type pc) (p_id pc) db1)).
  { rewrite Hdb1. apply Note_find_In. simpl. split; [|reflexivity].
    apply in_or_app. right. now left. }
  assert (Hother : Note_find (p_type po) (p_id po) db1 = Note_find (p_type po) (p_id po) db).
  { assert (Hno : PrincipalType_eqb (ownerType n) (p_type po)
                    && N.eqb (ownerId n) (p_id po) = false).
    { apply (owned_by_false po n). unfold n, owner, principal_pair in *. simpl. congruence. }
    rewrite Hdb1. unfold Note_find. cbn [Notes]. rewrite filter_app. cbn [filter].
    rewrite Hno. apply app_nil_r. }
  split.
  - destruct v; simpl.
    + rewrite (proj1 (bearer_accepted tc pc now2 _ db1 Htc Hnec Hvc2)).
      eexists. exists n. split; [reflexivity|]. split; [exact Hin|]. repeat split.
    + rewrite (proj2 (bearer_accepted tc pc now2 _ db1 Htc Hnec Hvc2)).
      eexists. exists n. split; [reflexivity|]. split; [|repeat split].
      eapply Permutation_in; [apply sort_createdAt_desc_perm | exact Hin].
  - destruct v; simpl.
    + rewrite (proj1 (bearer_accepted to po now2 _ db1 Hto Hneo Hvo)).
      rewrite (proj1 (bearer_accepted to po now2 _ db Hto Hneo Hvo)).
      unfold A.get_notes. simpl. now rewrite Hother.
    + rewrite (proj2 (bearer_accepted to po now2 _ db1 Hto Hneo Hvo)).
      rewrite (proj2 (bearer_accepted to po now2 _ db Hto Hneo Hvo)).
      unfold B.get_notes. simpl. now rewrite Hother.
Qed.
End Routes.

Lemma post_then_get_by_routes_witness :
  fst (@handle toy_crypto VersionB 20 (GET_notes (bearer user2))
         (snd (@handle toy_crypto VersionB 10 (POST_notes (bearer drawer1) body_xy)
                 db_two_owners)))
  = res_json (JNotes [note5_of_user2]).
Proof.
  assert (H1 : @jwt_sign toy_crypto drawer1 0 <> "") by discriminate.
  assert (H2 : @jwt_sign toy_crypto user2 0 <> "") by discriminate.
  assert (H3 : principal_pair user2 <> principal_pair drawer1) by discriminate.
  destruct (@post_then_get_by_routes toy_crypto VersionB
              (@jwt_sign toy_crypto drawer1 0) (@jwt_sign toy_crypto user2 0)
              drawer1 user2 body_xy 10 20 db_two_owners
              eq_refl H1 eq_refl eq_refl eq_refl H2 eq_refl H3) as [_ Hsame].
  exact Hsame.
Defined.
